(** * create-bolt-plugin: the scaffolding engine of [src/index.ts]

    A shallow embedding of [createPluginFiles], [generatePluginTypes] and
    [generatePluginSource], with the parts of the JavaScript runtime they
    rely on: [JSON.stringify] with an indent, the [fs-extra] calls
    [ensureDir], [writeFile] and [writeJSON], [path.join] and
    [console.log].

    Conventions.
    - A JavaScript string is a Rocq [string] holding its UTF-8 bytes, the
      bytes [fs.writeFile] puts on disk.  Template literals are written as
      concatenations, one source line per list element where the literal
      spans several lines.
    - A path is the list of its components.  [path.join base seg] is
      [base ++ [seg]]: exact for the literal components of the source and
      for a plugin name accepted by the prompt ([^[a-z0-9-]+$]), which
      holds no separator and is neither [.] nor [..].
    - An [async] function is a value of the free monad [Prog]: a tree of
      calls to the outside world, each followed by its continuation.  An
      awaited call that rejects ends the function, as no [try] surrounds
      any call in the source. *)

From Stdlib Require Import Ascii String.
From stdpp Require Import gmap strings list fin_maps.

Open Scope string_scope.
Open Scope list_scope.
Set Warnings "-register-all".

(** ** Strings *)

Module Str.

Definition dq : string := String (Ascii.ascii_of_nat 34) EmptyString.
Definition bs : string := String (Ascii.ascii_of_nat 92) EmptyString.
Definition nl : string := String (Ascii.ascii_of_nat 10) EmptyString.

(** [parts.join(sep)]. *)
Fixpoint join (sep : string) (parts : list string) : string :=
  match parts with
  | [] => EmptyString
  | [p] => p
  | p :: rest => p +:+ sep +:+ join sep rest
  end.

(** The concatenation of the pieces of a template literal. *)
Definition cat (parts : list string) : string :=
  foldr String.append EmptyString parts.

(** Source lines joined by line feeds (no line feed after the last). *)
Definition lines (ls : list string) : string := join nl ls.

(** [s.includes(t)]. *)
Fixpoint includes (t s : string) : bool :=
  String.prefix t s ||
  match s with
  | EmptyString => false
  | String _ s' => includes t s'
  end.

(** Splitting at the blanks, empty pieces dropped: the words of a
    command line. *)
Fixpoint words_aux (cur : string) (s : string) : list string :=
  let flush (k : list string) :=
    match cur with EmptyString => k | _ => String.rev cur :: k end in
  match s with
  | EmptyString => flush []
  | String c s' =>
      if Ascii.eqb c " "%char then flush (words_aux EmptyString s')
      else words_aux (String c cur) s'
  end.
Definition words (s : string) : list string := words_aux EmptyString s.

End Str.

(** ** JavaScript values and [JSON.stringify] *)

(** The values the generator hands to [fs.writeJSON]: strings, booleans,
    arrays, object literals (properties in creation order) and
    [undefined]. *)
Inductive JsValue : Type :=
  | JsUndefined
  | JsBool (b : bool)
  | JsString (s : string)
  | JsArray (items : list JsValue)
  | JsObject (props : list (string * JsValue)).

(** An optional property of [PluginAnswers] read into an object literal. *)
Definition js_strings (o : option (list string)) : JsValue :=
  match o with
  | None => JsUndefined
  | Some l => JsArray (JsString <$> l)
  end.

Module JSON.

(** A JSON document, what [JSON.stringify] prints. *)
Inductive doc : Type :=
  | Null
  | Bool (b : bool)
  | Str (s : string)
  | Arr (items : list doc)
  | Obj (members : list (string * doc)).

(** SerializeJSONProperty, the part that decides what is printed: a
    property whose value is [undefined] is left out of its object, an
    [undefined] array element prints as [null], and [undefined] itself
    has no serialization. *)
Fixpoint of_value (v : JsValue) : option doc :=
  match v with
  | JsUndefined => None
  | JsBool b => Some (Bool b)
  | JsString s => Some (Str s)
  | JsArray items =>
      Some (Arr (map (fun x => default Null (of_value x)) items))
  | JsObject props =>
      Some (Obj (flat_map
                   (fun kv => match of_value (snd kv) with
                              | Some d => [(fst kv, d)]
                              | None => []
                              end) props))
  end.

Definition hex_digit (n : nat) : ascii :=
  default "0"%char (String.list_ascii_of_string "0123456789abcdef" !! n).

(** QuoteJSONString on the bytes of a well-formed string. *)
Definition escape (c : ascii) : string :=
  let n := Ascii.nat_of_ascii c in
  if (n =? 34)%nat then Str.bs +:+ Str.dq
  else if (n =? 92)%nat then Str.bs +:+ Str.bs
  else if (n =? 8)%nat then Str.bs +:+ "b"
  else if (n =? 12)%nat then Str.bs +:+ "f"
  else if (n =? 10)%nat then Str.bs +:+ "n"
  else if (n =? 13)%nat then Str.bs +:+ "r"
  else if (n =? 9)%nat then Str.bs +:+ "t"
  else if (n <? 32)%nat then
    Str.bs +:+ "u00" +:+
    String (hex_digit (n / 16)) (String (hex_digit (n mod 16)) EmptyString)
  else String c EmptyString.

Fixpoint escape_all (s : string) : string :=
  match s with
  | EmptyString => EmptyString
  | String c s' => escape c +:+ escape_all s'
  end.

Definition quote (s : string) : string := Str.dq +:+ escape_all s +:+ Str.dq.

(** The bracketed, comma separated form shared by SerializeJSONObject and
    SerializeJSONArray; [gap] is the indent unit and [stepback] the
    indentation of the enclosing level. *)
Definition wrap (op cl gap stepback : string) (partial : list string) : string :=
  match partial with
  | [] => op +:+ cl
  | _ =>
      match gap with
      | EmptyString => op +:+ Str.join "," partial +:+ cl
      | _ =>
          let indent := stepback +:+ gap in
          op +:+ Str.nl +:+ indent
             +:+ Str.join ("," +:+ Str.nl +:+ indent) partial
             +:+ Str.nl +:+ stepback +:+ cl
      end
  end.

Fixpoint print (gap stepback : string) (d : doc) : string :=
  match d with
  | Null => "null"
  | Bool true => "true"
  | Bool false => "false"
  | Str s => quote s
  | Arr items =>
      wrap "[" "]" gap stepback (map (print gap (stepback +:+ gap)) items)
  | Obj members =>
      let colon := match gap with EmptyString => ":" | _ => ": " end in
      wrap "{" "}" gap stepback
        (map (fun kv => quote (fst kv) +:+ colon
                          +:+ print gap (stepback +:+ gap) (snd kv)) members)
  end.

Fixpoint spaces (n : nat) : string :=
  match n with
  | 0 => EmptyString
  | S k => String " "%char (spaces k)
  end.

(** [JSON.stringify(value, null, n)] for [n <= 10]. *)
Definition stringify (v : JsValue) (n : nat) : option string :=
  print (spaces n) EmptyString <$> of_value v.

End JSON.


(** ** The answers *)

(** [PluginAnswers.type]: ['ui' | 'middleware' | 'hybrid']. *)
Inductive PluginType : Type := ui | middleware | hybrid.

#[global] Instance PluginType_eq_dec : EqDecision PluginType.
Proof. solve_decision. Defined.

Definition type_string (t : PluginType) : string :=
  match t with
  | ui => "ui"
  | middleware => "middleware"
  | hybrid => "hybrid"
  end.

(** [interface PluginAnswers]; an optional property is [None] when it is
    [undefined]. *)
Record PluginAnswers : Type := {
  name : string;
  type : PluginType;
  slots : option (list string);
  middlewarePoints : option (list string);
  typescript : bool
}.

(** *** The prompt

    [inquirer.prompt] asks the questions in order; a question whose [when]
    is false is skipped and leaves its property [undefined], and an input
    rejected by [validate] is asked again. *)
Module Prompt.

(** The character class [[a-z0-9-]]. *)
Definition name_char (c : ascii) : bool :=
  let n := nat_of_ascii c in
  ((97 <=? n) && (n <=? 122) || (48 <=? n) && (n <=? 57) || (n =? 45))%nat.

Fixpoint all_name_chars (s : string) : bool :=
  match s with
  | EmptyString => true
  | String c s' => name_char c && all_name_chars s'
  end.

(** [validate]: [input.match(/^[a-z0-9-]+$/)]. *)
Definition validate (input : string) : bool :=
  match input with
  | EmptyString => false
  | _ => all_name_chars input
  end.





End Prompt.

(** A record the prompt can produce: the name matches [^[a-z0-9-]+$],
    [slots] is defined iff the type is not ['middleware'], and
    [middlewarePoints] is defined iff the type is not ['ui']. *)
Definition valid_answers (a : PluginAnswers) : bool :=
  Prompt.validate (name a)
  && bool_decide (is_Some (slots a) ↔ type a ≠ middleware)
  && bool_decide (is_Some (middlewarePoints a) ↔ type a ≠ ui).

(** ** Templates *)

(** [cond ? text : ''] inside a template literal. *)
Definition opt (cond : bool) (text : string) : string :=
  if cond then text else EmptyString.

(** The [packJs] literal of [createPluginFiles]. *)
Definition packJs : string :=
  Str.lines
    [ EmptyString;
      "const AdmZip = require('adm-zip');";
      "const path = require('path');";
      "const fs = require('fs');";
      "const pkg = require('../package.json');";
      EmptyString;
      "async function packPlugin() {";
      "    const zip = new AdmZip();";
      "    const manifest = require('../plugin.json');";
      "    const outputFile = `${ pkg.name }-${ pkg.version }.zip`;";
      EmptyString;
      "    // Add files specified in package.json 'files' array";
      "    for (const file of pkg.files) {";
      "        if (fs.existsSync(file)) {";
      "            zip.addLocalFile(file);";
      "        } else {";
      "            console.warn(`Warning: File ${ file } specified in package.json 'files' does not exist`);";
      "        }";
      "    }";
      EmptyString;
      "    // Create the zip file";
      "    zip.writeZip(outputFile);";
      "    console.log(`Plugin packed successfully: ${ outputFile }`);";
      "}";
      EmptyString;
      "packPlugin().catch(console.error);";
      EmptyString ].

(** The literal appended by [generatePluginTypes]: the capability
    contracts of a plugin. *)
Definition pluginContracts : string :=
  Str.lines
    [ EmptyString;
      "export interface PluginContext{";
      "    api: CoreAPI;";
      "}";
      EmptyString;
      "export interface UIPluginContext {";
      "    slot: string;";
      "    api: CoreAPI;";
      "}";
      EmptyString;
      "export interface MiddlewareContext {";
      "    point: string;";
      "    data: any;";
      "    api: CoreAPI;";
      "    next: (data: any) => Promise<any>;";
      "}";
      EmptyString;
      "export type UIPluginMount = (context: UIPluginContext) => Promise<ReactElement>; ";
      "export type MiddlewareProcess = (context: MiddlewareContext) => Promise<any>;";
      EmptyString;
      "export interface UIPlugin {";
      "    mount: UIPluginMount;";
      "    unmount?: () => Promise<void>;";
      "}";
      EmptyString;
      "export interface MiddlewarePlugin {";
      "    process: MiddlewareProcess;";
      "}";
      EmptyString;
      "export interface HybridPlugin extends UIPlugin, MiddlewarePlugin {}";
      EmptyString;
      "export type Plugin = UIPlugin | MiddlewarePlugin | HybridPlugin;";
      EmptyString;
      "export type CreatePlugin = (context: PluginContext) => Plugin;";
      EmptyString;
      EmptyString ].

(** [generatePluginSource]. *)
Definition generatePluginSource (answers : PluginAnswers) : string :=
  let ts := typescript answers in
  let imports :=
    if ts then
      Str.lines
        [ "import React, { ReactElement } from 'react';";
          "import { PluginContext, UIPluginContext, MiddlewareContext, CreatePlugin } from './types';" ]
    else "import React from 'react';" in
  let source :=
    Str.cat
      [ imports; Str.nl;
        Str.nl;
        "const createPlugin"; opt ts ": CreatePlugin"; " = (options";
          opt ts ": PluginContext"; ") => {"; Str.nl;
        "  return {"; Str.nl;
        "    ";
        opt (bool_decide (type answers ≠ middleware))
          (Str.cat
             [ Str.nl;
               "    mount: async (context"; opt ts ": UIPluginContext"; ")";
                 opt ts ": Promise<ReactElement>"; " => {"; Str.nl;
               "      return ("; Str.nl;
               "        <div className="; Str.dq; "p-4"; Str.dq; ">"; Str.nl;
               "          <h2 className="; Str.dq; "text-lg font-bold"; Str.dq;
                 ">Plugin UI</h2>"; Str.nl;
               "          <p>This is a sample plugin UI for slot: {context.slot}</p>"; Str.nl;
               "        </div>"; Str.nl;
               "      );"; Str.nl;
               "    },"; Str.nl;
               "    unmount: async (slot"; opt ts ": string"; ") => {"; Str.nl;
               "      // Cleanup code"; Str.nl;
               "    },"; Str.nl;
               "    " ]);
        Str.nl;
        "    ";
        opt (bool_decide (type answers ≠ ui))
          (Str.cat
             [ Str.nl;
               "    process: async (context"; opt ts ": MiddlewareContext";
                 ") => {"; Str.nl;
               "      const { data, next } = context;"; Str.nl;
               "      // Modify data here"; Str.nl;
               "      return next(data);"; Str.nl;
               "    }," ]);
        Str.nl;
        "  };"; Str.nl;
        "}"; Str.nl;
        "export default createPlugin;" ] in
  source.

(** ** The generated descriptors *)

(** The [manifest] object of [createPluginFiles]. *)
Definition manifest (answers : PluginAnswers) : JsValue :=
  JsObject
    [ ("id", JsString (name answers));
      ("version", JsString "1.0.0");
      ("type", JsString (type_string (type answers)));
      ("entryPoint", JsString "dist/index.js");
      ("permissions", JsArray []);
      ("slots", js_strings (slots answers));
      ("middlewarePoints", js_strings (middlewarePoints answers)) ].

(** The [packageJson] object of [createPluginFiles]; the spread of the
    conditional object appends its properties. *)
Definition packageJson (answers : PluginAnswers) : JsValue :=
  JsObject
    [ ("name", JsString (name answers));
      ("version", JsString "1.0.0");
      ("main", JsString "dist/index.js");
      ("scripts", JsObject
         [ ("build", JsString
              (if typescript answers then
                 "esbuild src/index.tsx --bundle --external:react --external:react-dom --outfile=dist/index.js --platform=browser --format=esm --minify"
               else
                 "esbuild src/index.jsx --bundle --external:react --external:react-dom --outfile=dist/index.js --platform=browser --format=esm --minify"));
           ("watch", JsString
              (if typescript answers then
                 "esbuild src/index.tsx --bundle --external:react --external:react-dom --outfile=dist/index.js --platform=browser --format=esm --watch"
               else
                 "esbuild src/index.jsx --bundle --external:react --external:react-dom --outfile=dist/index.js --platform=browser --format=esm --watch"));
           ("type-check", JsString
              (if typescript answers then "tsc --noEmit"
               else "echo " +:+ Str.dq +:+ "No type checking needed" +:+ Str.dq));
           ("prepack", JsString "npm run build");
           ("pack", JsString "node scripts/pack.js") ]);
      ("dependencies", JsObject
         [ ("react", JsString "^18.2.0");
           ("react-dom", JsString "^18.2.0") ]);
      ("devDependencies", JsObject
         ([ ("esbuild", JsString "^0.19.0");
            ("adm-zip", JsString "^0.5.10") ]
          ++ (if typescript answers then
                [ ("typescript", JsString "^5.0.0");
                  ("@types/node", JsString "^20.0.0");
                  ("@types/react", JsString "^18.2.0");
                  ("@types/react-dom", JsString "^18.2.0") ]
              else [])));
      ("files", JsArray
         [ JsString "dist/index.js";
           JsString "plugin.json";
           JsString "README.md" ]) ].

(** The [tsConfig] object of [createPluginFiles]. *)
Definition tsConfig : JsValue :=
  JsObject
    [ ("compilerOptions", JsObject
         [ ("target", JsString "es2020");
           ("module", JsString "esnext");
           ("strict", JsBool true);
           ("esModuleInterop", JsBool true);
           ("skipLibCheck", JsBool true);
           ("forceConsistentCasingInFileNames", JsBool true);
           ("outDir", JsString "./dist");
           ("declaration", JsBool true);
           ("jsx", JsString "react");
           ("moduleResolution", JsString "node");
           ("lib", JsArray [JsString "dom"; JsString "dom.iterable"; JsString "esnext"]);
           ("noEmit", JsBool true) ]);
      ("include", JsArray [JsString "src"]);
      ("exclude", JsArray [JsString "node_modules"; JsString "dist"]) ].

(** ** Asynchronous programs and the outside world *)

(** A path, component by component; [[]] is the root. *)
Abbreviation path := (list string).

(** [path.join(base, ...segs)]. *)
Definition path_join (base : path) (segs : list string) : path := base ++ segs.

(** The calls the generator makes to the outside world. *)
Inductive Call : Type :=
  | EnsureDir (dir : path)
  | WriteFile (file : path) (data : string)
  | ConsoleLog (line : string).

Inductive ErrCode : Type := EACCES | EISDIR | ENOENT | ENOTDIR.

(** What a rejected call throws. *)
Inductive Error : Type :=
  | FsError (code : ErrCode) (at_path : path)
  | TypeError (message : string).

(** The body of an [async] function: it returns, throws, reads the working
    directory of the process, or awaits a call and goes on. *)
Inductive Prog (A : Type) : Type :=
  | Ret (a : A)
  | Throw (e : Error)
  | Cwd (k : path -> Prog A)
  | Do (c : Call) (k : Prog A).

Arguments Ret {A} a.
Arguments Throw {A} e.
Arguments Cwd {A} k.
Arguments Do {A} c k.

Fixpoint bind {A B : Type} (f : A -> Prog B) (p : Prog A) : Prog B :=
  match p with
  | Ret a => f a
  | Throw e => Throw e
  | Cwd k => Cwd (fun d => bind f (k d))
  | Do c k => Do c (bind f k)
  end.

#[global] Instance Prog_ret : MRet Prog := @Ret.
#[global] Instance Prog_bind : MBind Prog := @bind.

(** [process.cwd()]. *)
Definition process_cwd : Prog path := Cwd Ret.

(** [console.log(line)]. *)
Definition console_log (line : string) : Prog unit := Do (ConsoleLog line) (Ret tt).

(** The [fs-extra] functions the generator awaits. *)
Module fs.

Definition ensureDir (dir : path) : Prog unit := Do (EnsureDir dir) (Ret tt).

Definition writeFile (file : path) (data : string) : Prog unit :=
  Do (WriteFile file data) (Ret tt).

(** [jsonfile]'s [stringify]: [JSON.stringify] and a final line feed. *)
Definition stringify (obj : JsValue) (spaces : nat) : option string :=
  (fun str => str +:+ Str.nl) <$> JSON.stringify obj spaces.

(** [writeJSON(file, obj, { spaces })]; on a value without serialization
    [jsonfile] fails on the missing string before any write. *)
Definition writeJSON (file : path) (obj : JsValue) (spaces : nat) : Prog unit :=
  match stringify obj spaces with
  | Some str => writeFile file str
  | None => Throw (TypeError "Cannot read properties of undefined")
  end.

End fs.

(** The state of the outside world: the working directory of the process,
    the directories and the regular files of the file system, the paths
    at which the system refuses any operation, and the lines printed. *)
Record World : Type := {
  proc_cwd : path;
  fs_dirs : gset path;
  fs_files : gmap path string;
  fs_denied : gset path;
  console_out : list string
}.

Definition set_dirs (d : gset path) (w : World) : World :=
  {| proc_cwd := proc_cwd w; fs_dirs := d; fs_files := fs_files w;
     fs_denied := fs_denied w; console_out := console_out w |}.

Definition set_files (f : gmap path string) (w : World) : World :=
  {| proc_cwd := proc_cwd w; fs_dirs := fs_dirs w; fs_files := f;
     fs_denied := fs_denied w; console_out := console_out w |}.

Definition set_console (o : list string) (w : World) : World :=
  {| proc_cwd := proc_cwd w; fs_dirs := fs_dirs w; fs_files := fs_files w;
     fs_denied := fs_denied w; console_out := o |}.

(** A path and the directories above it, the root first. *)
Definition ancestors (p : path) : list path :=
  (fun n => take n p) <$> seq 0 (S (length p)).

(** The directory a path lies in. *)
Definition parent (p : path) : path := take (length p - 1) p.

(** One call against the world.  A call that fails changes nothing.
    - [ensureDir] is [mkdir -p]: it fails where the system refuses the
      path or a regular file is in the way, and otherwise makes the
      directory and those above it.
    - [writeFile] fails where the system refuses the path, the path is a
      directory, or its parent directory is missing; otherwise it creates
      or overwrites the file.
    - [console.log] adds a line. *)
Definition step (c : Call) (w : World) : Error + World :=
  match c with
  | EnsureDir dir =>
      if bool_decide (dir ∈ fs_denied w) then inl (FsError EACCES dir)
      else
        match list_find (fun q => is_Some (fs_files w !! q)) (ancestors dir) with
        | Some (_, q) => inl (FsError ENOTDIR q)
        | None => inr (set_dirs (fs_dirs w ∪ list_to_set (ancestors dir)) w)
        end
  | WriteFile file data =>
      if bool_decide (file ∈ fs_denied w) then inl (FsError EACCES file)
      else if bool_decide (file ∈ fs_dirs w) then inl (FsError EISDIR file)
      else if bool_decide (parent file ∈ fs_dirs w)
           then inr (set_files (<[file := data]> (fs_files w)) w)
           else inl (FsError ENOENT file)
  | ConsoleLog line => inr (set_console (console_out w ++ [line]) w)
  end.

(** Running a program: the final world and what the function settles
    with.  A call that fails ends the run there. *)
Fixpoint run {A : Type} (p : Prog A) (w : World) : World * (Error + A) :=
  match p with
  | Ret a => (w, inr a)
  | Throw e => (w, inl e)
  | Cwd k => run (k (proc_cwd w)) w
  | Do c k =>
      match step c w with
      | inl e => (w, inl e)
      | inr w' => run k w'
      end
  end.

(** The calls a program makes when none fails, in order. *)
Fixpoint calls {A : Type} (p : Prog A) (cwd : path) : list Call :=
  match p with
  | Ret _ => []
  | Throw _ => []
  | Cwd k => calls (k cwd) cwd
  | Do c k => c :: calls k cwd
  end.

(** What a program settles with when no call fails. *)
Fixpoint outcome {A : Type} (p : Prog A) (cwd : path) : Error + A :=
  match p with
  | Ret a => inr a
  | Throw e => inl e
  | Cwd k => outcome (k cwd) cwd
  | Do _ k => outcome k cwd
  end.

(** A list of calls made one after the other, up to the first that
    fails. *)
Fixpoint exec (cs : list Call) (w : World) : World * (Error + unit) :=
  match cs with
  | [] => (w, inr tt)
  | c :: cs' =>
      match step c w with
      | inl e => (w, inl e)
      | inr w' => exec cs' w'
      end
  end.

(** ** Artifacts *)

(** [p] relative to [base], when it lies below it. *)
Definition relative (base p : path) : option path :=
  if decide (take (length base) p = base) then Some (drop (length base) p)
  else None.

(** The files a list of calls writes below [base]: relative path and data,
    in order. *)
Definition writes_under (base : path) (cs : list Call) : list (path * string) :=
  omap (fun c => match c with
                 | WriteFile file data => (fun r => (r, data)) <$> relative base file
                 | _ => None
                 end) cs.

(** The paths a list of calls writes to. *)
Definition targets (cs : list Call) : list path :=
  omap (fun c => match c with WriteFile file _ => Some file | _ => None end) cs.

(** The data of the first artifact at relative path [r]. *)
Definition content_of (arts : list (path * string)) (r : path) : option string :=
  snd <$> find (fun rc => bool_decide (rc.1 = r)) arts.

(** A list of artifacts put below [root] into a file store, in order. *)
Definition install (root : path) (arts : list (path * string))
    (m : gmap path string) : gmap path string :=
  foldl (fun m rc => <[root ++ rc.1 := rc.2]> m) m arts.

(** The text [fs.writeJSON] writes for an object literal. *)
Definition json_text (v : JsValue) : string :=
  default EmptyString (fs.stringify v 2).

(** The directory a generation fills: [pluginDir]. *)
Definition pluginDir (cwd : path) (answers : PluginAnswers) : path :=
  path_join cwd [name answers].

(** The file store after the writes of a list of calls, all made. *)
Definition written (cs : list Call) (m : gmap path string) : gmap path string :=
  foldl (fun m c => match c with
                    | WriteFile file data => <[file := data]> m
                    | _ => m
                    end) m cs.

(** The record with its [typescript] answer replaced. *)
Definition with_typescript (b : bool) (a : PluginAnswers) : PluginAnswers :=
  {| name := name a; type := type a; slots := slots a;
     middlewarePoints := middlewarePoints a; typescript := b |}.

(** The property [key] of an object literal. *)
Definition property (key : string) (v : JsValue) : option JsValue :=
  match v with
  | JsObject props => snd <$> find (fun kv => bool_decide (kv.1 = key)) props
  | _ => None
  end.

(** The call writing an artifact below [root]. *)
Definition put (root : path) (rc : path * string) : Call :=
  WriteFile (root ++ rc.1) rc.2.

(** A decidable statement about closed terms, by evaluation. *)
Ltac by_computation := apply (bool_decide_unpack _); vm_compute; exact I.

(** ** The generator *)

Section Generator.

(** [pluginTypeDefs], imported from [./plugin-lib-types]: a string
    constant whose module is not among the sources at hand; the shared
    type definitions every typed plugin starts with. *)
Variable pluginTypeDefs : string.

(** [chalk.green] and [chalk.cyan]: the text, wrapped in the colour codes
    the terminal supports. *)
Variables chalk_green chalk_cyan : string -> string.

(** [generatePluginTypes]. *)
Definition generatePluginTypes (answers : PluginAnswers) : string :=
  let ext := if typescript answers then "ts" else "js" in
  let source := pluginTypeDefs in
  let source :=
    if typescript answers then source +:+ pluginContracts else source in
  source.

(** [createPluginFiles]. *)
Definition createPluginFiles (answers : PluginAnswers) : Prog unit :=
  cwd ← process_cwd;
  let pluginDir := path_join cwd [name answers] in
  fs.ensureDir pluginDir;;
  fs.ensureDir (path_join pluginDir ["src"]);;
  fs.writeJSON (path_join pluginDir ["plugin.json"]) (manifest answers) 2;;
  fs.ensureDir (path_join pluginDir ["scripts"]);;
  fs.writeFile (path_join pluginDir ["scripts"; "pack.js"]) packJs;;
  fs.writeFile (path_join pluginDir ["README.md"])
    ("# " +:+ name answers +:+ Str.nl +:+ Str.nl +:+ "A plugin for bolt.diy");;
  fs.writeJSON (path_join pluginDir ["package.json"]) (packageJson answers) 2;;
  (if typescript answers
   then fs.writeJSON (path_join pluginDir ["tsconfig.json"]) tsConfig 2
   else mret tt);;
  (if typescript answers
   then
     let sourceTypesFile := generatePluginTypes answers in
     fs.writeFile (path_join pluginDir ["src"; "types.ts"]) sourceTypesFile
   else mret tt);;
  let sourceFile := generatePluginSource answers in
  fs.writeFile
    (path_join pluginDir
       ["src"; "index." +:+ (if typescript answers then "tsx" else "jsx")])
    sourceFile;;
  console_log (chalk_green (Str.nl +:+ "Plugin scaffolding complete! ðŸŽ‰"));;
  console_log (Str.nl +:+ "Next steps:");;
  console_log (chalk_cyan ("1. cd " +:+ name answers));;
  console_log (chalk_cyan "2. npm install");;
  console_log (chalk_cyan "3. npm run build").

(** The calls of a generation started in directory [cwd]. *)
Definition plan (answers : PluginAnswers) (cwd : path) : list Call :=
  calls (createPluginFiles answers) cwd.

(** The artifacts of a record: the files [createPluginFiles] writes,
    relative to the plugin directory, read off a generation started at
    the root. *)
Definition artifacts (answers : PluginAnswers) : list (path * string) :=
  writes_under (pluginDir [] answers) (plan answers []).

Definition artifact_paths (answers : PluginAnswers) : list path :=
  (artifacts answers).*1.

(** The files of a generation, written out. *)
Definition layout (a : PluginAnswers) : list (path * string) :=
  [ (["plugin.json"], json_text (manifest a));
    (["scripts"; "pack.js"], packJs);
    (["README.md"],
     "# " +:+ name a +:+ Str.nl +:+ Str.nl +:+ "A plugin for bolt.diy");
    (["package.json"], json_text (packageJson a)) ]
  ++ (if typescript a
      then [ (["tsconfig.json"], json_text tsConfig);
             (["src"; "types.ts"], generatePluginTypes a) ]
      else [])
  ++ [ (["src"; if typescript a then "index.tsx" else "index.jsx"],
        generatePluginSource a) ].

(** The lines printed once every file is written. *)
Definition summary (a : PluginAnswers) : list string :=
  [ chalk_green (Str.nl +:+ "Plugin scaffolding complete! ðŸŽ‰");
    Str.nl +:+ "Next steps:";
    chalk_cyan ("1. cd " +:+ name a);
    chalk_cyan "2. npm install";
    chalk_cyan "3. npm run build" ].

(** The command of script [key] in the build descriptor. *)
Definition script_command (key : string) (a : PluginAnswers) : option string :=
  match property "scripts" (packageJson a) ≫= property key with
  | Some (JsString command) => Some command
  | _ => None
  end.

(** [watch] is [build] with one more word somewhere on the command
    line. *)
Definition adds_a_flag (build watch : string) : Prop :=
  exists (before after : list string) (flag : string),
    Str.words build = before ++ after /\
    Str.words watch = before ++ flag :: after.

(** The scenario of the specification: a typed UI plugin for one slot. *)
Definition my_plugin : PluginAnswers :=
  {| name := "my-plugin"; type := ui; slots := Some ["app-header"];
     middlewarePoints := None; typescript := true |}.

(** An untyped middleware plugin. *)
Definition my_mw : PluginAnswers :=
  {| name := "my-mw"; type := middleware; slots := None;
     middlewarePoints := Some []; typescript := false |}.

(** A process started in an existing, empty home directory. *)
Definition home_world : World :=
  {| proc_cwd := ["home"; "user"];
     fs_dirs := list_to_set (ancestors ["home"; "user"]);
     fs_files := ∅;
     fs_denied := ∅;
     console_out := [] |}.

(** The same process in another directory that already holds a file. *)
Definition work_world : World :=
  {| proc_cwd := ["srv"; "work"; "plugins"];
     fs_dirs := list_to_set (ancestors ["srv"; "work"; "plugins"]);
     fs_files := {[ ["srv"; "work"; "plugins"; "notes.txt"] := "todo" ]};
     fs_denied := ∅;
     console_out := [] |}.

(** The home directory, with the system refusing the plugin's readme. *)
Definition refusing_world : World :=
  {| proc_cwd := ["home"; "user"];
     fs_dirs := list_to_set (ancestors ["home"; "user"]);
     fs_files := ∅;
     fs_denied := {[ ["home"; "user"; "my-plugin"; "README.md"] ]};
     console_out := [] |}.

(** [big] has every path of [small] and at least one more. *)
Definition strict_superset (big small : list path) : Prop :=
  small ⊆ big /\ ~ big ⊆ small.

(** A stand-in for the imported [pluginTypeDefs] where an example needs
    some text. *)
Definition sample_type_defs : string :=
  "export interface CoreAPI {}" +:+ Str.nl.

(** [chalk] on a terminal without colours. *)
Definition plain (text : string) : string := text.

(** The member [key] of a JSON object. *)
Definition member (key : string) (d : JSON.doc) : option JSON.doc :=
  match d with
  | JSON.Obj members => snd <$> find (fun kv => bool_decide (kv.1 = key)) members
  | _ => None
  end.

(** The package names under [devDependencies] in the build descriptor. *)
Definition dev_dependencies (a : PluginAnswers) : list string :=
  match property "devDependencies" (packageJson a) with
  | Some (JsObject props) => props.*1
  | _ => []
  end.

(** The [files] of the build descriptor, which [scripts/pack.js] packs. *)
Definition packaged_files (a : PluginAnswers) : list JsValue :=
  match property "files" (packageJson a) with
  | Some (JsArray items) => items
  | _ => []
  end.

(** The directories a list of calls makes sure of, with those above
    them. *)
Definition dirs_made (cs : list Call) : list path :=
  cs ≫= (fun c => match c with EnsureDir dir => ancestors dir | _ => [] end).

(** The lines a list of calls prints. *)
Definition printed (cs : list Call) : list string :=
  omap (fun c => match c with ConsoleLog line => Some line | _ => None end) cs.

(** Nothing stands in the way of a generation: the system refuses none of
    its directories and files, no regular file lies at or above the
    directories it makes, and none of its files is a directory. *)
Definition ready (a : PluginAnswers) (w : World) : Prop :=
  let root := pluginDir (proc_cwd w) a in
  Forall (fun p => p ∉ fs_denied w)
    ([root; root ++ ["src"]; root ++ ["scripts"]]
     ++ ((fun r => root ++ r) <$> artifact_paths a))
  /\ Forall (fun q => fs_files w !! q = None)
       (ancestors (root ++ ["src"]) ++ ancestors (root ++ ["scripts"]))
  /\ Forall (fun r => root ++ r ∉ fs_dirs w) (artifact_paths a).

(** The home directory, where a regular file already has the plugin's
    name. *)
Definition taken_world : World :=
  {| proc_cwd := ["home"; "user"];
     fs_dirs := list_to_set (ancestors ["home"; "user"]);
     fs_files := {[ ["home"; "user"; "my-plugin"] := "notes" ]};
     fs_denied := ∅;
     console_out := [] |}.

(** The home directory, where an earlier [README.md] of the plugin is
    still around. *)
Definition stale_world : World :=
  {| proc_cwd := ["home"; "user"];
     fs_dirs := list_to_set (ancestors ["home"; "user"; "my-plugin"]);
     fs_files := {[ ["home"; "user"; "my-plugin"; "README.md"] := "old notes";
                    ["home"; "user"; "keep.txt"] := "mine" ]};
     fs_denied := ∅;
     console_out := ["$ create-bolt-plugin"] |}.

(** The state a generation that meets no obstacle leaves. *)
Definition generated (a : PluginAnswers) (w : World) : World :=
  let root := pluginDir (proc_cwd w) a in
  {| proc_cwd := proc_cwd w;
     fs_dirs := fs_dirs w
                ∪ list_to_set (ancestors root ++ ancestors (root ++ ["src"])
                               ++ ancestors (root ++ ["scripts"]));
     fs_files := install root (artifacts a) (fs_files w);
     fs_denied := fs_denied w;
     console_out := console_out w ++ summary a |}.

(** The conditions under which a call goes through that do not depend on
    the calls made before it: a later world refuses the same paths, has
    at least the same directories and at least the same files. *)
Definition unhindered (c : Call) (w : World) : Prop :=
  match c with
  | EnsureDir dir =>
      (dir ∉ fs_denied w)
      /\ Forall (fun q => fs_files w !! q = None) (ancestors dir)
  | WriteFile file _ => (file ∉ fs_denied w) /\ (file ∉ fs_dirs w)
  | ConsoleLog _ => True
  end.

(** [s.endsWith(t)]. *)
Definition ends_with (t s : string) : bool :=
  String.prefix (String.rev t) (String.rev s).

(** The words that only a typed entry file uses. *)
Definition type_words : list string :=
  [ "CreatePlugin"; "PluginContext"; "UIPluginContext"; "MiddlewareContext";
    "ReactElement"; "Promise<"; ": string"; "./types" ].

(** * Properties *)


(** ** Runs and call lists *)

Lemma step_cwd c w w' : step c w = inr w' -> proc_cwd w' = proc_cwd w.
Proof.
  destruct c as [dir|file data|line]; cbn [step].
  - case_bool_decide; [discriminate|].
    destruct (list_find _ _) as [[? ?]|]; [discriminate|].
    by intros [= <-].
  - repeat (case_bool_decide; try discriminate). by intros [= <-].
  - by intros [= <-].
Qed.

Lemma step_files c w w' :
  step c w = inr w' -> fs_files w' = written [c] (fs_files w).
Proof.
  destruct c as [dir|file data|line]; cbn [step].
  - case_bool_decide; [discriminate|].
    destruct (list_find _ _) as [[? ?]|]; [discriminate|].
    by intros [= <-].
  - repeat (case_bool_decide; try discriminate). by intros [= <-].
  - by intros [= <-].
Qed.

(** A run is the execution of the program's calls, settled with the
    program's own outcome when every call succeeds. *)
Lemma run_exec {A : Type} (p : Prog A) (w : World) :
  run p w =
  match exec (calls p (proc_cwd w)) w with
  | (w', inl e) => (w', inl e)
  | (w', inr _) => (w', outcome p (proc_cwd w))
  end.
Proof.
  revert w. induction p as [a|e|k IH|c k IH]; intros w; simpl; try done.
  destruct (step c w) as [e|w'] eqn:Hs; [done|].
  by rewrite IH, (step_cwd _ _ _ Hs).
Qed.

Lemma exec_app cs1 cs2 w :
  exec (cs1 ++ cs2) w =
  match exec cs1 w with
  | (w1, inr _) => exec cs2 w1
  | failed => failed
  end.
Proof.
  revert w. induction cs1 as [|c cs1 IH]; intros w; simpl; [done|].
  by destruct (step c w).
Qed.

(** When the call at position [n] fails after the first [n] went through,
    the whole list stops there, in the world the first [n] calls left. *)
Lemma exec_fail_at cs n c w w1 e :
  cs !! n = Some c ->
  exec (take n cs) w = (w1, inr tt) ->
  step c w1 = inl e ->
  exec cs w = (w1, inl e).
Proof.
  intros Hn Hpre Hstep.
  rewrite <- (take_drop n cs) at 1. rewrite exec_app, Hpre.
  rewrite (drop_S _ _ _ Hn). simpl. by rewrite Hstep.
Qed.

Lemma written_app cs1 cs2 m : written (cs1 ++ cs2) m = written cs2 (written cs1 m).
Proof. apply foldl_app. Qed.

Lemma exec_ok_files cs w w' :
  exec cs w = (w', inr tt) -> fs_files w' = written cs (fs_files w).
Proof.
  revert w. induction cs as [|c cs IH]; intros w; simpl.
  - by intros [= <-].
  - destruct (step c w) as [e|w1] eqn:Hs; [discriminate|].
    intros Hex. rewrite (IH _ Hex), (step_files _ _ _ Hs). done.
Qed.

Lemma written_lookup_notin cs m p :
  p ∉ targets cs -> written cs m !! p = m !! p.
Proof.
  revert m. induction cs as [|c cs IH]; intros m Hp; [done|].
  destruct c as [dir|file data|line]; simpl in *; try by apply IH.
  apply not_elem_of_cons in Hp as [Hne Hp].
  rewrite IH by done. by apply lookup_insert_ne.
Qed.

Lemma targets_lookup cs i p d :
  cs !! i = Some (WriteFile p d) -> p ∈ targets cs.
Proof.
  intros Hi. apply list_elem_of_lookup_2 in Hi.
  apply list_elem_of_omap. by exists (WriteFile p d).
Qed.

Lemma written_lookup_in cs m i p d :
  NoDup (targets cs) ->
  cs !! i = Some (WriteFile p d) ->
  written cs m !! p = Some d.
Proof.
  revert m i. induction cs as [|c cs IH]; intros m i Hnd Hi; [done|].
  destruct i as [|i]; simpl in Hi.
  - injection Hi as ->. simpl in *. apply NoDup_cons in Hnd as [Hp _].
    rewrite written_lookup_notin by done. apply lookup_insert_eq.
  - destruct c as [dir|file data|line]; simpl in *; try by eapply IH.
    apply NoDup_cons in Hnd as [_ Hnd]. by eapply IH.
Qed.

Lemma relative_app base r : relative base (base ++ r) = Some r.
Proof.
  unfold relative. rewrite take_app_length, drop_app_length.
  by rewrite decide_True.
Qed.

Lemma writes_under_app base cs1 cs2 :
  writes_under base (cs1 ++ cs2) = writes_under base cs1 ++ writes_under base cs2.
Proof. apply omap_app. Qed.

Lemma writes_under_put root arts : writes_under root (put root <$> arts) = arts.
Proof.
  induction arts as [|[r d] arts IH]; [done|].
  unfold writes_under in *. cbn [fmap list_fmap omap list_omap put fst snd].
  rewrite relative_app. cbn [fmap option_fmap option_map]. by rewrite IH.
Qed.

Lemma writes_under_log root ls : writes_under root (ConsoleLog <$> ls) = [].
Proof. by induction ls. Qed.

Lemma targets_app cs1 cs2 : targets (cs1 ++ cs2) = targets cs1 ++ targets cs2.
Proof. apply omap_app. Qed.

Lemma targets_put root arts : targets (put root <$> arts) = (fun r => root ++ r) <$> arts.*1.
Proof.
  induction arts as [|[r d] arts IH]; [done|].
  unfold targets in *. cbn [fmap list_fmap omap list_omap put fst snd].
  by rewrite IH.
Qed.

Lemma targets_log ls : targets (ConsoleLog <$> ls) = [].
Proof. by induction ls. Qed.

Lemma written_put root arts m : written (put root <$> arts) m = install root arts m.
Proof.
  revert m. induction arts as [|[r d] arts IH]; intros m; [done|].
  unfold written, install in *. cbn [fmap list_fmap foldl put fst snd]. apply IH.
Qed.

Lemma written_log ls m : written (ConsoleLog <$> ls) m = m.
Proof. by induction ls. Qed.

Lemma install_lookup_notin root arts m p :
  p ∉ (fun r => root ++ r) <$> arts.*1 -> install root arts m !! p = m !! p.
Proof.
  rewrite <- written_put, <- targets_put. apply written_lookup_notin.
Qed.

Lemma install_lookup_in root arts m r d :
  NoDup arts.*1 -> (r, d) ∈ arts -> install root arts m !! (root ++ r) = Some d.
Proof.
  intros Hnd [i Hi]%list_elem_of_lookup_1.
  rewrite <- written_put. apply (written_lookup_in _ _ i).
  - rewrite targets_put. by apply (NoDup_fmap_2 _).
  - by rewrite list_lookup_fmap, Hi.
Qed.

Lemma content_of_elem arts r d :
  NoDup arts.*1 -> (content_of arts r = Some d <-> (r, d) ∈ arts).
Proof.
  unfold content_of. induction arts as [|[r' d'] arts IH]; intros Hnd; simpl.
  - split; [done|]. by intros ?%elem_of_nil.
  - apply NoDup_cons in Hnd as [Hr' Hnd]. case_bool_decide as Heq; simpl in *.
    + subst r'. split.
      * intros [= ->]. apply list_elem_of_here.
      * intros [[= ->]|Hin]%elem_of_cons; [done|].
        destruct Hr'. apply list_elem_of_fmap. by exists (r, d).
    + rewrite IH by done. split.
      * intros ?. by apply list_elem_of_further.
      * intros [[= -> ->]|Hin]%elem_of_cons; [done|done].
Qed.

Example stringify_demo :
  JSON.stringify
    (JsObject [("a", JsString "x"); ("u", JsUndefined);
               ("e", JsArray []); ("l", JsArray [JsString "p"; JsBool true]);
               ("o", JsObject [("k", JsUndefined)])]) 2
  = Some (Str.lines
      [ "{";
        "  " +:+ Str.dq +:+ "a" +:+ Str.dq +:+ ": " +:+ Str.dq +:+ "x" +:+ Str.dq +:+ ",";
        "  " +:+ Str.dq +:+ "e" +:+ Str.dq +:+ ": [],";
        "  " +:+ Str.dq +:+ "l" +:+ Str.dq +:+ ": [";
        "    " +:+ Str.dq +:+ "p" +:+ Str.dq +:+ ",";
        "    true";
        "  ],";
        "  " +:+ Str.dq +:+ "o" +:+ Str.dq +:+ ": {}";
        "}" ]).
Proof. reflexivity. Qed.

(** ** The calls of the generator *)

Lemma plan_eq a cwd :
  plan a cwd =
  [ EnsureDir (pluginDir cwd a);
    EnsureDir (pluginDir cwd a ++ ["src"]);
    put (pluginDir cwd a) (["plugin.json"], json_text (manifest a));
    EnsureDir (pluginDir cwd a ++ ["scripts"]) ]
  ++ (put (pluginDir cwd a) <$> drop 1 (layout a))
  ++ (ConsoleLog <$> summary a).
Proof.
  unfold plan, createPluginFiles, layout.
  destruct (typescript a); reflexivity.
Qed.

Lemma outcome_createPluginFiles a cwd : outcome (createPluginFiles a) cwd = inr tt.
Proof.
  unfold createPluginFiles. destruct (typescript a); reflexivity.
Qed.

(** A generation is its calls made in order up to the first failure. *)
Lemma run_createPluginFiles a w :
  run (createPluginFiles a) w = exec (plan a (proc_cwd w)) w.
Proof.
  rewrite run_exec, outcome_createPluginFiles. unfold plan.
  by destruct (exec _ w) as [w' [e|[]]].
Qed.

Lemma writes_under_plan a cwd : writes_under (pluginDir cwd a) (plan a cwd) = layout a.
Proof.
  rewrite plan_eq.
  replace (layout a) with (take 1 (layout a) ++ drop 1 (layout a))
    by apply take_drop.
  rewrite (writes_under_app _ [_; _; _; _]), writes_under_app.
  rewrite writes_under_put, writes_under_log, app_nil_r.
  f_equal. unfold writes_under, put. cbn [omap list_omap fst snd].
  by rewrite relative_app.
Qed.

Lemma artifacts_layout a : artifacts a = layout a.
Proof. apply writes_under_plan. Qed.

Lemma targets_plan a cwd :
  targets (plan a cwd) = (fun r => pluginDir cwd a ++ r) <$> artifact_paths a.
Proof.
  unfold artifact_paths. rewrite artifacts_layout, plan_eq.
  replace (layout a) with (take 1 (layout a) ++ drop 1 (layout a)) at 2
    by apply take_drop.
  rewrite (targets_app [_; _; _; _]), targets_app, targets_put, targets_log.
  by rewrite app_nil_r, fmap_app, fmap_app.
Qed.

Lemma written_plan a cwd m :
  written (plan a cwd) m = install (pluginDir cwd a) (artifacts a) m.
Proof.
  rewrite artifacts_layout, plan_eq.
  rewrite (written_app [_; _; _; _]), written_app, written_put, written_log.
  replace (layout a) with (take 1 (layout a) ++ drop 1 (layout a)) at 2
    by apply take_drop.
  unfold install. by rewrite foldl_app.
Qed.

Lemma NoDup_artifact_paths a : NoDup (artifact_paths a).
Proof.
  unfold artifact_paths. rewrite artifacts_layout. unfold layout.
  destruct (typescript a); cbn [fmap list_fmap app fst];
    apply (bool_decide_unpack _); vm_compute; exact I.
Qed.

Lemma NoDup_targets_plan a cwd : NoDup (targets (plan a cwd)).
Proof.
  rewrite targets_plan. apply (NoDup_fmap_2 _), NoDup_artifact_paths.
Qed.

(** ** What a generation produces *)

(** A generation that completes leaves the file store it found, with the
    artifacts of the record put below the plugin directory. *)
Lemma run_ok_files a w w' :
  run (createPluginFiles a) w = (w', inr tt) ->
  fs_files w' = install (pluginDir (proc_cwd w) a) (artifacts a) (fs_files w).
Proof.
  rewrite run_createPluginFiles. intros Hex.
  by rewrite (exec_ok_files _ _ _ Hex), written_plan.
Qed.

Lemma NoDup_artifacts a : NoDup (artifacts a).*1.
Proof. apply NoDup_artifact_paths. Qed.

(** C1. The artifacts are a function of the answers alone.  Two
    generations from the same valid record, started in any two worlds
    (working directory, file system, refused paths, console), issue
    writes with the same relative paths and the same data; when both
    complete, every artifact path holds the same bytes in both file
    systems, and each file store is the one found at the start with the
    artifacts of the record put below the plugin directory.  (Validity
    is what makes the component-wise [path_join] exact for the name.) *)
Theorem createPluginFiles_deterministic a w1 w2 w1' w2' :
  valid_answers a = true ->
  run (createPluginFiles a) w1 = (w1', inr tt) ->
  run (createPluginFiles a) w2 = (w2', inr tt) ->
  writes_under (pluginDir (proc_cwd w1) a) (plan a (proc_cwd w1))
    = writes_under (pluginDir (proc_cwd w2) a) (plan a (proc_cwd w2))
  /\ (forall r, r ∈ artifact_paths a ->
        is_Some (fs_files w1' !! (pluginDir (proc_cwd w1) a ++ r))
        /\ fs_files w1' !! (pluginDir (proc_cwd w1) a ++ r)
           = fs_files w2' !! (pluginDir (proc_cwd w2) a ++ r))
  /\ fs_files w1' = install (pluginDir (proc_cwd w1) a) (artifacts a) (fs_files w1)
  /\ fs_files w2' = install (pluginDir (proc_cwd w2) a) (artifacts a) (fs_files w2).
Proof.
  intros _ Hrun1 Hrun2.
  pose proof (run_ok_files _ _ _ Hrun1) as Hf1.
  pose proof (run_ok_files _ _ _ Hrun2) as Hf2.
  split; [by rewrite !writes_under_plan|].
  split; [|done].
  intros r ([r' d] & -> & Hin)%list_elem_of_fmap. cbn [fst].
  rewrite Hf1, Hf2.
  rewrite !(install_lookup_in _ _ _ r' d) by (apply NoDup_artifacts || done).
  split; [by eexists|done].
Qed.

(** ** The manifest *)

(** C2. For every valid record the manifest written to [plugin.json] is
    a JSON object that has a [slots] member iff the type is not
    ['middleware'] and a [middlewarePoints] member iff the type is not
    ['ui']: a property read as [undefined] is left out by
    [JSON.stringify]. *)
Theorem manifest_fields a :
  valid_answers a = true ->
  exists members,
    JSON.of_value (manifest a) = Some (JSON.Obj members)
    /\ content_of (artifacts a) ["plugin.json"]
       = Some (JSON.print (JSON.spaces 2) EmptyString (JSON.Obj members) +:+ Str.nl)
    /\ ("slots" ∈ members.*1 <-> type a ≠ middleware)
    /\ ("middlewarePoints" ∈ members.*1 <-> type a ≠ ui).
Proof.
  unfold valid_answers. intros Hv.
  apply andb_prop in Hv as [Hv Hmp]. apply andb_prop in Hv as [_ Hsl].
  apply bool_decide_eq_true in Hsl, Hmp.
  rewrite artifacts_layout.
  destruct a as [n t sl mp ts]; cbn [slots middlewarePoints type] in *.
  destruct sl as [sl|], mp as [mp|];
    [ eexists; split; [reflexivity|]; split; [reflexivity|];
      cbn [fmap list_fmap fst]; rewrite <- Hsl, <- Hmp; split; split ..
    | exfalso ].
  all: try (intros _; by eexists).
  all: try (intros _; by_computation).
  all: try (intros Hin; exfalso; revert Hin; by_computation).
  all: try (by intros [? ?]).
  destruct t.
  - by destruct (proj2 Hsl ltac:(done)) as [? ?].
  - by destruct (proj2 Hmp ltac:(done)) as [? ?].
  - by destruct (proj2 Hsl ltac:(done)) as [? ?].
Qed.

(** ** The entry file *)

Lemma content_of_entry a :
  content_of (artifacts a)
    ["src"; if typescript a then "index.tsx" else "index.jsx"]
  = Some (generatePluginSource a).
Proof.
  rewrite artifacts_layout. unfold layout, content_of.
  by destruct (typescript a).
Qed.

(** C3. The entry file is the text [generatePluginSource] renders, and
    the object literal in it has the handlers of the plugin's type: for
    ['ui'] the properties [mount] and [unmount] and no occurrence of
    [process]; for ['middleware'] the property [process] and no
    occurrence of [mount] (hence none of [unmount]); for ['hybrid'] all
    three properties. *)
Theorem entry_capabilities a :
  content_of (artifacts a)
    ["src"; if typescript a then "index.tsx" else "index.jsx"]
  = Some (generatePluginSource a)
  /\ match type a with
     | ui =>
         Str.includes " mount: async (context" (generatePluginSource a) = true
         /\ Str.includes " unmount: async (slot" (generatePluginSource a) = true
         /\ Str.includes "process" (generatePluginSource a) = false
     | middleware =>
         Str.includes " process: async (context" (generatePluginSource a) = true
         /\ Str.includes "mount" (generatePluginSource a) = false
     | hybrid =>
         Str.includes " mount: async (context" (generatePluginSource a) = true
         /\ Str.includes " unmount: async (slot" (generatePluginSource a) = true
         /\ Str.includes " process: async (context" (generatePluginSource a) = true
     end.
Proof.
  split; [apply content_of_entry|].
  destruct a as [n t sl mp ts]. cbn [type].
  destruct t, ts; repeat split; vm_compute; reflexivity.
Qed.

(** ** The packaging script *)

(** C5. The packaging script is the same text for every pair of records,
    whatever their names, types, slots, middleware points and typing
    choices: the constant [packJs]. *)
Theorem pack_script_constant a1 a2 :
  content_of (artifacts a1) ["scripts"; "pack.js"]
  = content_of (artifacts a2) ["scripts"; "pack.js"]
  /\ content_of (artifacts a1) ["scripts"; "pack.js"] = Some packJs.
Proof.
  rewrite !artifacts_layout. unfold layout, content_of. split; reflexivity.
Qed.

(** ** The type definitions *)

Lemma content_of_types a :
  content_of (artifacts a) ["src"; "types.ts"]
  = if typescript a then Some (generatePluginTypes a) else None.
Proof.
  rewrite artifacts_layout. unfold layout, content_of.
  by destruct (typescript a).
Qed.

(** C9. Any two records that ask for static typing get the same
    [src/types.ts], byte for byte: its text does not depend on the name,
    the type, the slots or the middleware points. *)
Theorem types_file_independent a1 a2 :
  typescript a1 = true ->
  typescript a2 = true ->
  content_of (artifacts a1) ["src"; "types.ts"]
  = content_of (artifacts a2) ["src"; "types.ts"]
  /\ content_of (artifacts a1) ["src"; "types.ts"] = Some (generatePluginTypes a1)
  /\ generatePluginTypes a1 = generatePluginTypes a2.
Proof.
  intros H1 H2. rewrite !content_of_types. unfold generatePluginTypes.
  by rewrite H1, H2.
Qed.

(** C10. [generatePluginTypes] is reached only when static typing is
    asked for: [src/types.ts] is an artifact exactly then, and its text
    is always the shared definitions followed by the capability
    contracts; every call of the generator that writes that path carries
    this text.  (On an untyped record the renderer would return the
    shared definitions alone, and no call writes them.) *)
Theorem types_file_always_full a :
  content_of (artifacts a) ["src"; "types.ts"]
  = (if typescript a then Some (pluginTypeDefs +:+ pluginContracts) else None)
  /\ (forall cwd data,
        WriteFile (pluginDir cwd a ++ ["src"; "types.ts"]) data ∈ plan a cwd ->
        typescript a = true /\ data = pluginTypeDefs +:+ pluginContracts)
  /\ (typescript a = false -> generatePluginTypes a = pluginTypeDefs).
Proof.
  split; [|split].
  - rewrite content_of_types. unfold generatePluginTypes.
    by destruct (typescript a).
  - intros cwd data Hin.
    assert ((["src"; "types.ts"], data) ∈ artifacts a) as Hart.
    { rewrite artifacts_layout, <- (writes_under_plan a cwd).
      apply list_elem_of_omap. eexists. split; [exact Hin|].
      cbn beta iota. by rewrite relative_app. }
    apply content_of_elem in Hart; [|apply NoDup_artifacts].
    rewrite content_of_types in Hart. unfold generatePluginTypes in Hart.
    destruct (typescript a); [|done]. by injection Hart as <-.
  - unfold generatePluginTypes. by intros ->.
Qed.

(** ** Typed and untyped generations *)

(** C4, as amended.  For every record, the untyped generation writes
    [plugin.json], [scripts/pack.js], [README.md], [package.json] and the
    entry file [src/index.jsx]; the typed generation writes the same first
    four, then [tsconfig.json] and [src/types.ts], and its entry file is
    [src/index.tsx].  So the typed paths are the untyped ones without
    [src/index.jsx], together with three paths no untyped generation
    writes. *)
Theorem typed_paths a :
  artifact_paths (with_typescript false a)
  = [ ["plugin.json"]; ["scripts"; "pack.js"]; ["README.md"]; ["package.json"];
      ["src"; "index.jsx"] ]
  /\ artifact_paths (with_typescript true a)
     = [ ["plugin.json"]; ["scripts"; "pack.js"]; ["README.md"]; ["package.json"];
         ["tsconfig.json"]; ["src"; "types.ts"]; ["src"; "index.tsx"] ]
  /\ (forall r,
        r ∈ artifact_paths (with_typescript true a) <->
        (r ∈ artifact_paths (with_typescript false a) /\ r ≠ ["src"; "index.jsx"])
        \/ r ∈ [ ["tsconfig.json"]; ["src"; "types.ts"]; ["src"; "index.tsx"] ])
  /\ (forall r,
        r ∈ [ ["tsconfig.json"]; ["src"; "types.ts"]; ["src"; "index.tsx"] ] ->
        r ∉ artifact_paths (with_typescript false a)).
Proof.
  assert (artifact_paths (with_typescript false a)
          = [ ["plugin.json"]; ["scripts"; "pack.js"]; ["README.md"];
              ["package.json"]; ["src"; "index.jsx"] ]) as Hu.
  { unfold artifact_paths. by rewrite artifacts_layout. }
  assert (artifact_paths (with_typescript true a)
          = [ ["plugin.json"]; ["scripts"; "pack.js"]; ["README.md"];
              ["package.json"]; ["tsconfig.json"]; ["src"; "types.ts"];
              ["src"; "index.tsx"] ]) as Ht.
  { unfold artifact_paths. by rewrite artifacts_layout. }
  rewrite Hu, Ht. split; [done|]. split; [done|]. split.
  - intros r. rewrite !elem_of_cons, !elem_of_nil. split.
    + intros [->|[->|[->|[->|[->|[->|[->|[]]]]]]]]; auto 10.
    + intros [[[->|[->|[->|[->|[->|[]]]]]] Hne]|[->|[->|[->|[]]]]]; auto 10.
  - intros r. rewrite !elem_of_cons, !elem_of_nil.
    intros [->|[->|[->|[]]]]; intros [|[|[|[|[|[]]]]]]; discriminate.
Qed.

(** ** The build and watch commands *)

(** C6, as amended.  The [build] and [watch] scripts of the build
    descriptor depend on the typing choice alone; between the typing
    modes they differ only in the extension of the entry file, [tsx] or
    [jsx]; and within a mode they share everything but the last flag,
    [--minify] for [build] and [--watch] for [watch]. *)
Theorem build_watch_commands a :
  let common :=
    "esbuild src/index." +:+ (if typescript a then "tsx" else "jsx")
    +:+ " --bundle --external:react --external:react-dom"
    +:+ " --outfile=dist/index.js --platform=browser --format=esm" in
  script_command "build" a = Some (common +:+ " --minify")
  /\ script_command "watch" a = Some (common +:+ " --watch").
Proof.
  destruct a as [n t sl mp ts]. cbn [typescript].
  destruct ts; split; reflexivity.
Qed.

(** ** The scenario of the specification *)

(** C7. For the record named [my-plugin], of type ['ui'], with the slot
    [app-header] and static typing: the generation has exactly seven
    artifacts, among them [src/types.ts] and [src/index.tsx]; run in an
    empty home directory it completes and leaves exactly seven files;
    the manifest has [slots] equal to [["app-header"]] and no
    [middlewarePoints] member; and the build script is the typed
    command, on [src/index.tsx]. *)
Theorem my_plugin_scenario :
  artifact_paths my_plugin
  = [ ["plugin.json"]; ["scripts"; "pack.js"]; ["README.md"]; ["package.json"];
      ["tsconfig.json"]; ["src"; "types.ts"]; ["src"; "index.tsx"] ]
  /\ (exists w',
        run (createPluginFiles my_plugin) home_world = (w', inr tt)
        /\ size (fs_files w') = 7
        /\ fs_files w' !! ["home"; "user"; "my-plugin"; "src"; "types.ts"]
           = Some (pluginTypeDefs +:+ pluginContracts)
        /\ fs_files w' !! ["home"; "user"; "my-plugin"; "src"; "index.tsx"]
           = Some (generatePluginSource my_plugin))
  /\ JSON.of_value (manifest my_plugin)
     = Some (JSON.Obj
               [ ("id", JSON.Str "my-plugin");
                 ("version", JSON.Str "1.0.0");
                 ("type", JSON.Str "ui");
                 ("entryPoint", JSON.Str "dist/index.js");
                 ("permissions", JSON.Arr []);
                 ("slots", JSON.Arr [JSON.Str "app-header"]) ])
  /\ content_of (artifacts my_plugin) ["plugin.json"]
     = Some (Str.lines
               [ "{";
                 "  " +:+ JSON.quote "id" +:+ ": " +:+ JSON.quote "my-plugin" +:+ ",";
                 "  " +:+ JSON.quote "version" +:+ ": " +:+ JSON.quote "1.0.0" +:+ ",";
                 "  " +:+ JSON.quote "type" +:+ ": " +:+ JSON.quote "ui" +:+ ",";
                 "  " +:+ JSON.quote "entryPoint" +:+ ": " +:+ JSON.quote "dist/index.js" +:+ ",";
                 "  " +:+ JSON.quote "permissions" +:+ ": [],";
                 "  " +:+ JSON.quote "slots" +:+ ": [";
                 "    " +:+ JSON.quote "app-header";
                 "  ]";
                 "}";
                 EmptyString ])
  /\ script_command "build" my_plugin
     = Some "esbuild src/index.tsx --bundle --external:react --external:react-dom --outfile=dist/index.js --platform=browser --format=esm --minify".
Proof.
  split; [unfold artifact_paths; by rewrite artifacts_layout|].
  split.
  { eexists. split; [apply surjective_pairing|].
    split; [|split]; vm_compute; reflexivity. }
  split; [reflexivity|].
  split; [rewrite artifacts_layout; vm_compute; reflexivity|].
  reflexivity.
Qed.

(** ** Failing calls *)

Lemma NoDup_targets_split cs n :
  NoDup (targets cs) ->
  NoDup (targets (take n cs))
  /\ (forall p, p ∈ targets (take n cs) -> p ∉ targets (drop n cs)).
Proof.
  rewrite <- (take_drop n cs) at 1. rewrite targets_app.
  intros (Hnd & Hdisj & _)%NoDup_app. done.
Qed.

Lemma written_take_in cs n m i p d :
  NoDup (targets cs) -> i < n ->
  cs !! i = Some (WriteFile p d) ->
  written (take n cs) m !! p = Some d.
Proof.
  intros [Hnd _]%(NoDup_targets_split _ n) Hlt Hi.
  apply (written_lookup_in _ _ i); [done|].
  by rewrite lookup_take_lt.
Qed.

Lemma written_take_notin cs n m i p d :
  NoDup (targets cs) -> n <= i ->
  cs !! i = Some (WriteFile p d) ->
  written (take n cs) m !! p = m !! p.
Proof.
  intros [_ Hdisj]%(NoDup_targets_split _ n) Hle Hi.
  apply written_lookup_notin. intros Hin. apply (Hdisj _ Hin).
  apply (targets_lookup _ (i - n) _ d).
  rewrite lookup_drop. by replace (n + (i - n)) with i by lia.
Qed.

Lemma step_log line w : step (ConsoleLog line) w = inr (set_console (console_out w ++ [line]) w).
Proof. done. Qed.

Lemma step_console c w w' :
  step c w = inr w' -> (forall line, c ≠ ConsoleLog line) ->
  console_out w' = console_out w.
Proof.
  destruct c as [dir|file data|line]; cbn [step].
  - case_bool_decide; [discriminate|].
    destruct (list_find _ _) as [[? ?]|]; [discriminate|].
    by intros [= <-].
  - repeat (case_bool_decide; try discriminate). by intros [= <-].
  - intros _ Hne. by destruct (Hne line).
Qed.

Lemma exec_console cs w w' r :
  exec cs w = (w', r) ->
  (forall line, ConsoleLog line ∉ cs) ->
  console_out w' = console_out w.
Proof.
  revert w. induction cs as [|c cs IH]; intros w; simpl.
  - by intros [= <- _].
  - intros Hex Hno. destruct (step c w) as [e|w1] eqn:Hs.
    + by injection Hex as <- _.
    + rewrite (IH _ Hex).
      * apply (step_console _ _ _ Hs). intros line ->.
        apply (Hno line), list_elem_of_here.
      * intros line Hin. apply (Hno line). by apply list_elem_of_further.
Qed.

(** The calls before a call of the generator that fails print nothing:
    the summary comes after the last write. *)
Lemma plan_no_log_before a cwd n c w e :
  plan a cwd !! n = Some c ->
  step c w = inl e ->
  forall line, ConsoleLog line ∉ take n (plan a cwd).
Proof.
  rewrite plan_eq. intros Hn Hstep line Hin.
  rewrite app_assoc in Hn, Hin.
  apply lookup_app_Some in Hn as [Hn|[_ Hn]].
  - apply lookup_lt_Some in Hn.
    rewrite take_app_le in Hin by lia.
    apply elem_of_take in Hin as (i & Hi & _).
    apply list_elem_of_lookup_2 in Hi.
    apply elem_of_app in Hi as [Hi|Hi].
    + rewrite !elem_of_cons, elem_of_nil in Hi.
      by destruct Hi as [?|[?|[?|[?|[]]]]].
    + by apply list_elem_of_fmap in Hi as ([? ?] & ? & _).
  - rewrite list_lookup_fmap in Hn.
    destruct (summary a !! _); [|done]. injection Hn as <-.
    by rewrite step_log in Hstep.
Qed.

(** C8. The calls of a generation are made in order.  When the call at
    position [n] fails after the [n] calls before it went through, the
    generation settles with that failure, in the world those [n] calls
    left: every file written before position [n] is in place with its
    data, no file whose write comes after position [n] has been touched,
    and the completion summary has not been printed. *)
Theorem createPluginFiles_fail_fast a w n c w1 e :
  plan a (proc_cwd w) !! n = Some c ->
  exec (take n (plan a (proc_cwd w))) w = (w1, inr tt) ->
  step c w1 = inl e ->
  run (createPluginFiles a) w = (w1, inl e)
  /\ (forall i file data,
        i < n -> plan a (proc_cwd w) !! i = Some (WriteFile file data) ->
        fs_files w1 !! file = Some data)
  /\ (forall i file data,
        n < i -> plan a (proc_cwd w) !! i = Some (WriteFile file data) ->
        fs_files w1 !! file = fs_files w !! file)
  /\ console_out w1 = console_out w.
Proof.
  intros Hn Hpre Hstep.
  pose proof (exec_ok_files _ _ _ Hpre) as Hfiles.
  pose proof (NoDup_targets_plan a (proc_cwd w)) as Hnd.
  split; [|split; [|split]].
  - rewrite run_createPluginFiles. by eapply exec_fail_at.
  - intros i file data Hlt Hi. rewrite Hfiles. by eapply written_take_in.
  - intros i file data Hlt Hi. rewrite Hfiles.
    eapply written_take_notin; [done| |done]. lia.
  - eapply exec_console; [done|]. by eapply plan_no_log_before.
Qed.

(** ** More on runs *)

Lemma elem_of_ancestors (q p : path) : q ∈ ancestors p <-> q `prefix_of` p.
Proof.
  unfold ancestors. rewrite list_elem_of_fmap. split.
  - intros (n & -> & _). apply prefix_take.
  - intros [k ->]. exists (length q). split.
    + by rewrite take_app_length.
    + apply elem_of_seq. rewrite length_app. lia.
Qed.

Lemma parent_snoc (p : path) (x : string) : parent (p ++ [x]) = p.
Proof.
  unfold parent. rewrite length_app. cbn [length].
  replace (length p + 1 - 1) with (length p) by lia. apply take_app_length.
Qed.

Lemma step_ensureDir_ok dir w :
  dir ∉ fs_denied w ->
  Forall (fun q => fs_files w !! q = None) (ancestors dir) ->
  step (EnsureDir dir) w
  = inr (set_dirs (fs_dirs w ∪ list_to_set (ancestors dir)) w).
Proof.
  intros Hden Hfree. cbn [step]. rewrite bool_decide_eq_false_2 by done.
  destruct (list_find _ _) as [[i q]|] eqn:Hfind; [|done].
  apply list_find_Some in Hfind as (Hi & [x Hx] & _).
  apply list_elem_of_lookup_2 in Hi.
  rewrite Forall_forall in Hfree. by rewrite (Hfree _ Hi) in Hx.
Qed.

Lemma step_writeFile_ok file data w :
  file ∉ fs_denied w -> file ∉ fs_dirs w -> parent file ∈ fs_dirs w ->
  step (WriteFile file data) w
  = inr (set_files (<[file := data]> (fs_files w)) w).
Proof.
  intros Hden Hdir Hpar. cbn [step].
  rewrite !bool_decide_eq_false_2 by done. by rewrite bool_decide_eq_true_2.
Qed.

(** What a call that goes through leaves of the parts of the world it
    does not write. *)
Lemma step_frame c w w' :
  step c w = inr w' ->
  fs_denied w' = fs_denied w
  /\ fs_dirs w' = fs_dirs w ∪ list_to_set (dirs_made [c])
  /\ console_out w' = console_out w ++ printed [c].
Proof.
  destruct c as [dir|file data|line]; cbn [step].
  - case_bool_decide; [discriminate|].
    destruct (list_find _ _) as [[? ?]|]; [discriminate|].
    intros [= <-]. cbn. by rewrite !app_nil_r.
  - repeat (case_bool_decide; try discriminate). intros [= <-]. cbn.
    by rewrite app_nil_r, (right_id_L ∅ (∪)).
  - intros [= <-]. cbn. by rewrite (right_id_L ∅ (∪)).
Qed.

Lemma dirs_made_cons c cs : dirs_made (c :: cs) = dirs_made [c] ++ dirs_made cs.
Proof. unfold dirs_made. cbn. by rewrite app_nil_r. Qed.

Lemma printed_cons c cs : printed (c :: cs) = printed [c] ++ printed cs.
Proof. unfold printed. cbn. by destruct c. Qed.

Lemma exec_ok_frame cs w w' :
  exec cs w = (w', inr tt) ->
  proc_cwd w' = proc_cwd w
  /\ fs_denied w' = fs_denied w
  /\ fs_dirs w' = fs_dirs w ∪ list_to_set (dirs_made cs)
  /\ console_out w' = console_out w ++ printed cs.
Proof.
  revert w. induction cs as [|c cs IH]; intros w; cbn [exec].
  - intros [= <-]. cbn. by rewrite app_nil_r, (right_id_L ∅ (∪)).
  - destruct (step c w) as [e|w1] eqn:Hs; [discriminate|].
    intros (Hc & Hd & Hdirs & Hout)%IH.
    destruct (step_frame _ _ _ Hs) as (Hd1 & Hdirs1 & Hout1).
    rewrite (dirs_made_cons c cs), (printed_cons c cs), list_to_set_app_L.
    rewrite Hc, Hd, Hdirs, Hout, Hd1, Hdirs1, Hout1, (step_cwd _ _ _ Hs).
    by rewrite (assoc_L (∪)), (assoc_L (++)).
Qed.

(** A list of calls runs up to some position, and stops there only at a
    call that fails. *)
Lemma exec_inv cs w w' r :
  exec cs w = (w', r) ->
  exists n,
    exec (take n cs) w = (w', inr tt)
    /\ match r with
       | inr _ => n = length cs
       | inl e => exists c, cs !! n = Some c /\ step c w' = inl e
       end.
Proof.
  revert w. induction cs as [|c cs IH]; intros w; simpl.
  - intros [= <- <-]. by exists 0.
  - destruct (step c w) as [e|w1] eqn:Hs.
    + intros [= <- <-]. exists 0. split; [done|]. by exists c.
    + intros (n & Hpre & Hr)%IH. exists (S n). simpl. rewrite Hs.
      split; [done|]. destruct r as [e|[]]; [done|]. by rewrite Hr.
Qed.

Lemma targets_take cs n p : p ∈ targets (take n cs) -> p ∈ targets cs.
Proof.
  intros (c & Hc & Hp)%list_elem_of_omap.
  apply list_elem_of_omap. exists c. split; [|done].
  apply elem_of_take in Hc as (i & Hi & _). by eapply list_elem_of_lookup_2.
Qed.

Lemma written_is_Some cs m p :
  is_Some (m !! p) -> is_Some (written cs m !! p).
Proof.
  revert m. induction cs as [|c cs IH]; intros m Hp; [done|].
  destruct c as [dir|file data|line]; simpl; try by apply IH.
  apply IH. rewrite lookup_insert_is_Some.
  destruct (decide (file = p)); auto.
Qed.

Lemma printed_app cs1 cs2 : printed (cs1 ++ cs2) = printed cs1 ++ printed cs2.
Proof. apply omap_app. Qed.

Lemma printed_put root arts : printed (put root <$> arts) = [].
Proof. by induction arts. Qed.

Lemma printed_log ls : printed (ConsoleLog <$> ls) = ls.
Proof. induction ls as [|l ls IH]; [done|]. cbn. f_equal. apply IH. Qed.

Lemma printed_nil cs : (forall line, ConsoleLog line ∉ cs) -> printed cs = [].
Proof.
  induction cs as [|c cs IH]; intros Hno; [done|].
  rewrite printed_cons, IH.
  - destruct c as [dir|file data|line]; try done.
    destruct (Hno line). apply list_elem_of_here.
  - intros line Hin. apply (Hno line). by apply list_elem_of_further.
Qed.

Lemma printed_plan a cwd : printed (plan a cwd) = summary a.
Proof.
  rewrite plan_eq, (printed_app [_; _; _; _]), printed_app.
  by rewrite printed_put, printed_log.
Qed.

Lemma dirs_made_app cs1 cs2 : dirs_made (cs1 ++ cs2) = dirs_made cs1 ++ dirs_made cs2.
Proof. unfold dirs_made. apply bind_app. Qed.

Lemma dirs_made_put root arts : dirs_made (put root <$> arts) = [].
Proof. by induction arts. Qed.

Lemma dirs_made_log ls : dirs_made (ConsoleLog <$> ls) = [].
Proof. by induction ls. Qed.

(** ** What a generation leaves alone *)

(** X7. Whatever its outcome, a generation changes no file but its own
    artifacts below the plugin directory, removes no file and no
    directory, and leaves the working directory and the refused paths as
    they were. *)
Theorem createPluginFiles_frame a w :
  let w' := (run (createPluginFiles a) w).1 in
  (forall p,
     p ∉ (fun r => pluginDir (proc_cwd w) a ++ r) <$> artifact_paths a ->
     fs_files w' !! p = fs_files w !! p)
  /\ (forall p, is_Some (fs_files w !! p) -> is_Some (fs_files w' !! p))
  /\ fs_dirs w ⊆ fs_dirs w'
  /\ fs_denied w' = fs_denied w
  /\ proc_cwd w' = proc_cwd w.
Proof.
  rewrite run_createPluginFiles.
  destruct (exec _ w) as [w' r] eqn:Hex. cbn [fst].
  apply exec_inv in Hex as (n & Hpre & _).
  pose proof (exec_ok_files _ _ _ Hpre) as Hfiles.
  destruct (exec_ok_frame _ _ _ Hpre) as (Hcwd & Hden & Hdirs & _).
  split; [|split; [|split; [|done]]].
  - intros p Hp. rewrite Hfiles. apply written_lookup_notin.
    intros Hin%targets_take. by rewrite targets_plan in Hin.
  - intros p Hp. rewrite Hfiles. by apply written_is_Some.
  - rewrite Hdirs. apply union_subseteq_l.
Qed.

(** ** The lines printed *)

(** X8. A generation that completes prints the five lines of its summary
    after what was on the console, the third being [1. cd] and the name;
    a generation that fails prints nothing. *)
Theorem createPluginFiles_console a w :
  console_out (run (createPluginFiles a) w).1
  = console_out w
    ++ match (run (createPluginFiles a) w).2 with
       | inr _ => summary a
       | inl _ => []
       end.
Proof.
  rewrite run_createPluginFiles.
  destruct (exec _ w) as [w' r] eqn:Hex. cbn [fst snd].
  apply exec_inv in Hex as (n & Hpre & Hr).
  destruct (exec_ok_frame _ _ _ Hpre) as (_ & _ & _ & ->).
  f_equal. destruct r as [e|[]].
  - destruct Hr as (c & Hc & Hstep).
    apply printed_nil. by eapply plan_no_log_before.
  - subst n. by rewrite firstn_all, printed_plan.
Qed.

(** ** Runs that fail *)

(** What a failing call throws. *)
Lemma step_error c w e :
  step c w = inl e ->
  exists code at_path,
    e = FsError code at_path
    /\ match c with
       | EnsureDir dir => at_path `prefix_of` dir
       | WriteFile file _ => at_path = file
       | ConsoleLog _ => False
       end.
Proof.
  destruct c as [dir|file data|line]; cbn [step]; intros Hstep.
  - case_bool_decide.
    + injection Hstep as <-. by exists EACCES, dir.
    + destruct (list_find _ _) as [[i q]|] eqn:Hfind; [|done].
      injection Hstep as <-. exists ENOTDIR, q. split; [done|].
      apply list_find_Some in Hfind as (Hi & _).
      apply list_elem_of_lookup_2 in Hi. by apply elem_of_ancestors.
  - repeat case_bool_decide; try done; injection Hstep as <-;
      by eexists _, file.
  - done.
Qed.

(** X5. A generation that fails stopped at one of its calls: the calls before
    it all went through and left the final world, that call failed with
    the error the generation settles with, and no later call was made.
    The error is a file-system error, and the path it reports is the file
    the call writes, or the directory it makes or one above it. *)
Theorem createPluginFiles_failure a w w' e :
  run (createPluginFiles a) w = (w', inl e) ->
  exists n c code at_path,
    plan a (proc_cwd w) !! n = Some c
    /\ exec (take n (plan a (proc_cwd w))) w = (w', inr tt)
    /\ step c w' = inl e
    /\ e = FsError code at_path
    /\ match c with
       | EnsureDir dir => at_path `prefix_of` dir
       | WriteFile file _ => at_path = file
       | ConsoleLog _ => False
       end.
Proof.
  rewrite run_createPluginFiles.
  intros (n & Hpre & c & Hc & Hstep)%exec_inv.
  destruct (step_error _ _ _ Hstep) as (code & at_path & He & Hat).
  by exists n, c, code, at_path.
Qed.

(** ** Runs that complete *)

Lemma parent_app (root r : path) : r ≠ [] -> parent (root ++ r) = root ++ parent r.
Proof.
  intros Hr. destruct (exists_last Hr) as (r' & x & ->).
  by rewrite (assoc_L (++)), !parent_snoc.
Qed.

Lemma exec_puts_ok root arts w :
  Forall (fun rc => (root ++ rc.1 ∉ fs_denied w)
                    /\ (root ++ rc.1 ∉ fs_dirs w)
                    /\ (parent (root ++ rc.1) ∈ fs_dirs w)) arts ->
  exec (put root <$> arts) w
  = (set_files (install root arts (fs_files w)) w, inr tt).
Proof.
  revert w. induction arts as [|[r d] arts IH]; intros w Hall.
  - by destruct w.
  - apply Forall_cons in Hall as [(Hden & Hdir & Hpar) Hall].
    cbn [fmap list_fmap exec]. unfold put at 1. cbn [fst snd].
    rewrite step_writeFile_ok by done. by rewrite IH.
Qed.

Lemma exec_logs ls w :
  exec (ConsoleLog <$> ls) w = (set_console (console_out w ++ ls) w, inr tt).
Proof.
  revert w. induction ls as [|l ls IH]; intros w.
  - cbn. rewrite app_nil_r. by destruct w.
  - cbn [fmap list_fmap exec step]. rewrite IH. cbn.
    by rewrite <- (assoc_L (++)).
Qed.

(** The artifacts lie directly in the plugin directory, in [src] or in
    [scripts], and none of them is one of those directories. *)
Lemma artifact_paths_shape a :
  Forall (fun r => r ≠ []
                   /\ ~ (r `prefix_of` ["src"])
                   /\ ~ (r `prefix_of` ["scripts"])
                   /\ (parent r = [] \/ parent r = ["src"]
                       \/ parent r = ["scripts"]))
    (artifact_paths a).
Proof.
  unfold artifact_paths. rewrite artifacts_layout. unfold layout.
  destruct (typescript a); cbn [fmap list_fmap app fst]; by_computation.
Qed.

Lemma run_ready a w :
  ready a w -> run (createPluginFiles a) w = (generated a w, inr tt).
Proof.
  intros (Hden & Hfree & Hnd).
  rewrite run_createPluginFiles, plan_eq.
  set (root := pluginDir (proc_cwd w) a) in *.
  apply Forall_app in Hden as [Hden Hdena].
  apply Forall_cons in Hden as [Hd0 Hden].
  apply Forall_cons in Hden as [Hd1 Hden].
  apply Forall_cons in Hden as [Hd2 _].
  apply Forall_app in Hfree as [Hfsrc Hfscr].
  rewrite Forall_fmap in Hdena. rewrite Forall_forall in Hdena, Hnd.
  pose proof (artifact_paths_shape a) as Hshape.
  rewrite Forall_forall in Hshape.
  (* a write of an artifact goes through once the three directories are
     there *)
  assert (forall w0 rc,
            rc ∈ layout a ->
            fs_denied w0 = fs_denied w ->
            fs_dirs w0 ⊆ fs_dirs w
                         ∪ list_to_set (ancestors root ++ ancestors (root ++ ["src"])
                                        ++ ancestors (root ++ ["scripts"])) ->
            root ++ parent rc.1 ∈ fs_dirs w0 ->
            (root ++ rc.1 ∉ fs_denied w0)
            /\ (root ++ rc.1 ∉ fs_dirs w0)
            /\ (parent (root ++ rc.1) ∈ fs_dirs w0)) as Hwrite.
  { intros w0 [r d] Hin Hd Hsub Hpar. cbn [fst] in *.
    assert (r ∈ artifact_paths a) as Hr.
    { unfold artifact_paths. rewrite artifacts_layout.
      apply list_elem_of_fmap. by exists (r, d). }
    destruct (Hshape _ Hr) as (Hne & Hnsrc & Hnscr & _).
    split; [rewrite Hd; by apply Hdena|].
    split; [|by rewrite parent_app].
    intros Hdir%Hsub. apply elem_of_union in Hdir as [Hdir|Hdir].
    - by apply (Hnd _ Hr).
    - apply elem_of_list_to_set in Hdir.
      rewrite !elem_of_app, !elem_of_ancestors in Hdir.
      destruct Hdir as [Hp|[Hp|Hp]].
      + rewrite <- (app_nil_r root) in Hp at 2.
        apply prefix_app_inv, prefix_nil_inv in Hp. done.
      + by apply prefix_app_inv in Hp.
      + by apply prefix_app_inv in Hp. }
  assert (forall q, q `prefix_of` root -> q `prefix_of` root ++ ["src"]) as Hup.
  { intros q Hq. by apply prefix_app_r. }
  (* the four calls before the remaining writes *)
  rewrite exec_app. cbn [exec].
  rewrite step_ensureDir_ok; [|done|].
  2:{ apply Forall_forall. intros q Hq%elem_of_ancestors%Hup%elem_of_ancestors.
      rewrite Forall_forall in Hfsrc. by apply Hfsrc. }
  rewrite step_ensureDir_ok; [|done|done].
  unfold put at 1. cbn [fst snd].
  assert ((["plugin.json"], json_text (manifest a)) ∈ layout a) as Hman.
  { unfold layout. cbn [app]. apply list_elem_of_here. }
  match goal with |- context [step _ ?w0] =>
    destruct (Hwrite w0 _ Hman) as (Hm1 & Hm2 & Hm3) end.
  { done. }
  { cbn [set_dirs fs_dirs]. rewrite !list_to_set_app_L.
    intros x. rewrite !elem_of_union. tauto. }
  { cbn [set_dirs fs_dirs fst]. rewrite app_nil_r.
    apply elem_of_union_l, elem_of_union_r, elem_of_list_to_set.
    by apply elem_of_ancestors. }
  cbn [fst] in Hm1, Hm2, Hm3.
  rewrite step_writeFile_ok by done.
  rewrite step_ensureDir_ok; [|done|].
  2:{ cbn [set_files set_dirs fs_files]. apply Forall_forall.
      intros q Hq. rewrite lookup_insert_ne.
      - rewrite Forall_forall in Hfscr. by apply Hfscr.
      - intros <-. apply elem_of_ancestors, prefix_app_inv in Hq.
        revert Hq. by_computation. }
  (* the remaining writes, then the summary *)
  rewrite exec_app, exec_puts_ok.
  2:{ apply Forall_forall. intros rc Hrc. apply Hwrite.
      - by apply (subseteq_drop 1).
      - done.
      - cbn [set_files set_dirs fs_dirs]. rewrite !list_to_set_app_L.
    intros x. rewrite !elem_of_union. tauto.
      - apply (subseteq_drop 1) in Hrc.
        assert (rc.1 ∈ artifact_paths a) as Hr.
        { unfold artifact_paths. rewrite artifacts_layout.
          by apply list_elem_of_fmap_2. }
        destruct (Hshape _ Hr) as (_ & _ & _ & [Hp|[Hp|Hp]]); rewrite Hp;
          cbn [set_files set_dirs fs_dirs]; rewrite ?app_nil_r;
          repeat rewrite elem_of_union; rewrite !elem_of_list_to_set,
            !elem_of_ancestors; auto. }
  rewrite exec_logs. f_equal. unfold generated, set_console, set_files, set_dirs.
  cbn [proc_cwd fs_dirs fs_files fs_denied console_out]. fold root.
  f_equal.
  - rewrite !list_to_set_app_L. by rewrite !(assoc_L (∪)).
  - rewrite artifacts_layout.
    replace (layout a) with (take 1 (layout a) ++ drop 1 (layout a)) at 2
      by apply take_drop.
    unfold install. by rewrite foldl_app.
Qed.

Lemma step_unhindered c w w' : step c w = inr w' -> unhindered c w.
Proof.
  destruct c as [dir|file data|line]; cbn [step unhindered]; [| |done].
  - case_bool_decide; [discriminate|].
    destruct (list_find _ _) as [[? ?]|] eqn:Hfind; [discriminate|].
    intros _. split; [done|].
    apply list_find_None in Hfind. apply Forall_forall.
    rewrite Forall_forall in Hfind. intros q Hq.
    specialize (Hfind q Hq). destruct (fs_files w !! q); [|done].
    destruct Hfind. by eexists.
  - repeat (case_bool_decide; try discriminate). done.
Qed.

Lemma unhindered_earlier c0 c w w1 :
  step c0 w = inr w1 -> unhindered c w1 -> unhindered c w.
Proof.
  intros Hs.
  destruct (step_frame _ _ _ Hs) as (Hden & Hdirs & _).
  pose proof (step_files _ _ _ Hs) as Hfiles.
  destruct c as [dir|file data|line]; cbn [unhindered]; [| |done].
  - rewrite Hden. intros [Hd Hfree]. split; [done|].
    apply Forall_forall. rewrite Forall_forall in Hfree. intros q Hq.
    specialize (Hfree q Hq). rewrite Hfiles in Hfree.
    destruct (fs_files w !! q) eqn:Hq0; [|done].
    assert (is_Some (written [c0] (fs_files w) !! q)) as [? Hsome].
    { apply written_is_Some. by eexists. }
    congruence.
  - rewrite Hden, Hdirs. intros [Hd Hnd]. split; [done|].
    intros Hin. apply Hnd. by apply elem_of_union_l.
Qed.

Lemma exec_unhindered cs w w' :
  exec cs w = (w', inr tt) -> Forall (fun c => unhindered c w) cs.
Proof.
  revert w. induction cs as [|c cs IH]; intros w; cbn [exec]; [done|].
  destruct (step c w) as [e|w1] eqn:Hs; [discriminate|].
  intros Hex%IH. apply Forall_cons. split.
  - by eapply step_unhindered.
  - eapply Forall_impl; [exact Hex|]. intros c' Hc'.
    by eapply unhindered_earlier.
Qed.

Lemma artifact_not_made a (root : path) r :
  r ∈ artifact_paths a ->
  root ++ r ∉ ancestors root ++ ancestors (root ++ ["src"])
              ++ ancestors (root ++ ["scripts"]).
Proof.
  intros Hr Hin.
  pose proof (artifact_paths_shape a) as Hshape.
  rewrite Forall_forall in Hshape.
  destruct (Hshape _ Hr) as (Hne & Hnsrc & Hnscr & _).
  rewrite !elem_of_app, !elem_of_ancestors in Hin.
  destruct Hin as [Hp|[Hp|Hp]].
  - rewrite <- (app_nil_r root) in Hp at 2.
    by apply prefix_app_inv, prefix_nil_inv in Hp.
  - by apply prefix_app_inv in Hp.
  - by apply prefix_app_inv in Hp.
Qed.

(** X1. When nothing stands in the way, a generation completes, and leaves
    exactly this: the directories it found, with the plugin directory, its
    [src] and [scripts] and those above them; the files it found, with
    the artifacts put below the plugin directory, over whatever was
    there; the summary added to the console.  So every artifact is on
    disk with its data, in a directory that exists, and is not itself a
    directory. *)
Theorem createPluginFiles_completes a w :
  ready a w ->
  run (createPluginFiles a) w = (generated a w, inr tt)
  /\ (forall r d, (r, d) ∈ artifacts a ->
        fs_files (generated a w) !! (pluginDir (proc_cwd w) a ++ r) = Some d
        /\ parent (pluginDir (proc_cwd w) a ++ r) ∈ fs_dirs (generated a w)
        /\ pluginDir (proc_cwd w) a ++ r ∉ fs_dirs (generated a w))
  /\ (forall dir, dir ∈ [ []; ["src"]; ["scripts"] ] ->
        pluginDir (proc_cwd w) a ++ dir ∈ fs_dirs (generated a w)).
Proof.
  intros Hready. split; [by apply run_ready|].
  set (root := pluginDir (proc_cwd w) a).
  assert (forall dir, dir ∈ [ []; ["src"]; ["scripts"] ] ->
            root ++ dir ∈ fs_dirs (generated a w)) as Hdirs.
  { intros dir Hdir. unfold generated. cbn [fs_dirs]. fold root.
    apply elem_of_union_r, elem_of_list_to_set.
    rewrite !elem_of_app, !elem_of_ancestors.
    rewrite !elem_of_cons, elem_of_nil in Hdir.
    destruct Hdir as [Hd|[Hd|[Hd|[]]]]; rewrite Hd, ?app_nil_r; auto. }
  split; [|done].
  intros r d Hin.
  assert (r ∈ artifact_paths a) as Hr.
  { apply list_elem_of_fmap. by exists (r, d). }
  split; [|split].
  - unfold generated. cbn [fs_files].
    by apply install_lookup_in; [apply NoDup_artifacts|].
  - pose proof (artifact_paths_shape a) as Hshape.
    rewrite Forall_forall in Hshape.
    destruct (Hshape _ Hr) as (Hne & _ & _ & Hpar).
    rewrite parent_app by done. apply Hdirs.
    rewrite !elem_of_cons. destruct Hpar as [Hp|[Hp|Hp]]; rewrite Hp; auto.
  - destruct Hready as (_ & _ & Hnd). rewrite Forall_forall in Hnd.
    unfold generated. cbn [fs_dirs].
    rewrite elem_of_union, elem_of_list_to_set. intros [Hd|Hd].
    + by apply (Hnd r).
    + by apply (artifact_not_made a root r Hr).
Qed.

(** X2. A generation completes only when nothing stands in its way: the
    condition [ready] is exactly what a generation needs, and [generated]
    the only state it can complete in. *)
Theorem createPluginFiles_completes_only a w w' :
  run (createPluginFiles a) w = (w', inr tt) ->
  ready a w /\ w' = generated a w.
Proof.
  intros Hrun. assert (ready a w) as Hready.
  { rewrite run_createPluginFiles in Hrun.
    apply exec_unhindered in Hrun. rewrite Forall_forall in Hrun.
    assert (forall c, c ∈ plan a (proc_cwd w) -> unhindered c w) as Hc by done.
    clear Hrun. unfold ready. set (root := pluginDir (proc_cwd w) a).
    assert (EnsureDir root ∈ plan a (proc_cwd w)) as H0.
    { rewrite plan_eq. apply elem_of_app. left. apply list_elem_of_here. }
    assert (EnsureDir (root ++ ["src"]) ∈ plan a (proc_cwd w)) as H1.
    { rewrite plan_eq. apply elem_of_app. left.
      apply list_elem_of_further, list_elem_of_here. }
    assert (EnsureDir (root ++ ["scripts"]) ∈ plan a (proc_cwd w)) as H2.
    { rewrite plan_eq. apply elem_of_app. left.
      do 3 apply list_elem_of_further. apply list_elem_of_here. }
    assert (forall r, r ∈ artifact_paths a ->
              exists d, WriteFile (root ++ r) d ∈ plan a (proc_cwd w)) as Hw.
    { intros r ([r' d] & -> & Hin)%list_elem_of_fmap. exists d.
      rewrite artifacts_layout, <- (writes_under_plan a (proc_cwd w)) in Hin.
      apply list_elem_of_omap in Hin as (c & Hc' & Hrel).
      destruct c as [dir|file data|line]; try discriminate.
      unfold relative in Hrel. case_decide as Hpre; [|discriminate].
      injection Hrel as <- <-. cbn [fst].
      fold root in Hpre. rewrite <- Hpre at 1. by rewrite take_drop. }
    apply Hc in H0 as [Hd0 _]. apply Hc in H1 as [Hd1 Hf1].
    apply Hc in H2 as [Hd2 Hf2].
    split; [|split].
    - apply Forall_app. split; [by repeat constructor|].
      apply Forall_fmap, Forall_forall. intros r [d Hr]%Hw.
      by apply Hc in Hr as [? _].
    - by apply Forall_app.
    - apply Forall_forall. intros r [d Hr]%Hw. by apply Hc in Hr as [_ ?]. }
  split; [done|].
  pose proof (run_ready a w Hready) as Hgen. congruence.
Qed.

(** ** Generating again *)

Lemma install_idem (root : path) (arts : list (path * string))
    (m : gmap path string) :
  NoDup arts.*1 -> install root arts (install root arts m) = install root arts m.
Proof.
  intros Hnd. apply map_eq. intros p.
  destruct (decide (p ∈ (fun r => root ++ r) <$> arts.*1)) as [Hin|Hout].
  - apply list_elem_of_fmap in Hin as (r & -> & Hr).
    apply list_elem_of_fmap in Hr as ([r' d] & -> & Hrd). cbn [fst].
    by rewrite !(install_lookup_in _ _ _ r' d).
  - by rewrite !install_lookup_notin.
Qed.

Lemma ready_generated a w : ready a w -> ready a (generated a w).
Proof.
  intros (Hden & Hfree & Hnd). unfold ready, generated.
  cbn [proc_cwd fs_denied fs_files fs_dirs].
  set (root := pluginDir (proc_cwd w) a) in *.
  split; [done|]. split.
  - apply Forall_forall. rewrite Forall_forall in Hfree. intros q Hq.
    rewrite install_lookup_notin; [by apply Hfree|].
    intros (r & -> & Hr)%list_elem_of_fmap.
    apply (artifact_not_made a root r Hr).
    rewrite elem_of_app. right. done.
  - apply Forall_forall. rewrite Forall_forall in Hnd. intros r Hr.
    rewrite elem_of_union, elem_of_list_to_set. intros [Hin|Hin].
    + by apply (Hnd r).
    + by apply (artifact_not_made a root r Hr).
Qed.

(** X3. Generating a second time over a completed generation completes too
    and changes nothing on disk: the same files with the same data, the
    same directories; only the summary is printed again. *)
Theorem createPluginFiles_again a w :
  ready a w ->
  exists w2,
    run (createPluginFiles a) (generated a w) = (w2, inr tt)
    /\ fs_files w2 = fs_files (generated a w)
    /\ fs_dirs w2 = fs_dirs (generated a w)
    /\ console_out w2 = console_out w ++ summary a ++ summary a.
Proof.
  intros Hready. exists (generated a (generated a w)).
  split; [by apply run_ready, ready_generated|].
  unfold generated. cbn [proc_cwd fs_denied fs_files fs_dirs console_out].
  split; [|split].
  - apply install_idem, NoDup_artifacts.
  - by rewrite <- (assoc_L (∪)), (idemp_L (∪)).
  - by rewrite (assoc_L (++)).
Qed.

(** ** A plugin directory that cannot be made *)

(** X4. When the system refuses the plugin directory, or a regular file lies
    at it or above it, the generation fails on its first call with a
    file-system error at that directory or above it, and the world is
    left as it was: nothing is written and nothing is printed. *)
Theorem createPluginFiles_blocked a w :
  pluginDir (proc_cwd w) a ∈ fs_denied w
  \/ (exists q, q `prefix_of` pluginDir (proc_cwd w) a
                /\ is_Some (fs_files w !! q)) ->
  exists code at_path,
    run (createPluginFiles a) w = (w, inl (FsError code at_path))
    /\ at_path `prefix_of` pluginDir (proc_cwd w) a.
Proof.
  intros Hblocked. rewrite run_createPluginFiles, plan_eq.
  cbn [app exec].
  destruct (step (EnsureDir (pluginDir (proc_cwd w) a)) w) as [e|w1] eqn:Hs.
  - destruct (step_error _ _ _ Hs) as (code & at_path & -> & Hat).
    by exists code, at_path.
  - apply step_unhindered in Hs as [Hd Hfree]. exfalso.
    destruct Hblocked as [Hden|(q & Hq & [x Hx])]; [done|].
    rewrite Forall_forall in Hfree.
    apply elem_of_ancestors in Hq. by rewrite (Hfree _ Hq) in Hx.
Qed.

(** ** The manifest, member by member *)

Lemma of_value_strings (l : list string) :
  map (fun x => default JSON.Null (JSON.of_value x)) (JsString <$> l)
  = JSON.Str <$> l.
Proof. induction l as [|s l IH]; [done|]. cbn. by rewrite <- IH. Qed.

(** X9. For every record, valid or not, the manifest carries the name as
    [id], the type, the fixed version, entry point and empty permissions;
    [slots] and [middlewarePoints] are members exactly when the answers
    define them, and then hold the selected strings in the order of the
    answers (an empty selection is an empty array, not a missing
    member). *)
Theorem manifest_members a :
  exists d,
    JSON.of_value (manifest a) = Some d
    /\ member "id" d = Some (JSON.Str (name a))
    /\ member "version" d = Some (JSON.Str "1.0.0")
    /\ member "type" d = Some (JSON.Str (type_string (type a)))
    /\ member "entryPoint" d = Some (JSON.Str "dist/index.js")
    /\ member "permissions" d = Some (JSON.Arr [])
    /\ member "slots" d = (fun l => JSON.Arr (JSON.Str <$> l)) <$> slots a
    /\ member "middlewarePoints" d
       = (fun l => JSON.Arr (JSON.Str <$> l)) <$> middlewarePoints a.
Proof.
  destruct a as [n t sl mp ts]. cbn [name type slots middlewarePoints].
  destruct sl as [sl|], mp as [mp|]; eexists; (split; [reflexivity|]);
    cbn; rewrite ?of_value_strings; by repeat split.
Qed.

(** ** The descriptors agree with the files *)

(** X10. The file the [build] and [watch] commands hand to [esbuild] is the
    entry file the generation writes, [esbuild] is a dev dependency, and
    the bundle the commands put out is the [main] of the build descriptor
    and the [entryPoint] of the manifest. *)
Theorem build_bundles_entry a :
  exists entry build watch,
    content_of (artifacts a) ["src"; entry] = Some (generatePluginSource a)
    /\ script_command "build" a = Some build
    /\ script_command "watch" a = Some watch
    /\ take 2 (Str.words build) = ["esbuild"; "src/" +:+ entry]
    /\ take 2 (Str.words watch) = ["esbuild"; "src/" +:+ entry]
    /\ "esbuild" ∈ dev_dependencies a
    /\ "--outfile=dist/index.js" ∈ Str.words build
    /\ "--outfile=dist/index.js" ∈ Str.words watch
    /\ property "main" (packageJson a) = Some (JsString "dist/index.js")
    /\ property "entryPoint" (manifest a) = Some (JsString "dist/index.js").
Proof.
  exists (if typescript a then "index.tsx" else "index.jsx").
  pose proof (content_of_entry a) as Hentry.
  destruct a as [n t sl mp ts]. cbn [typescript] in *.
  destruct ts; do 2 eexists; (split; [exact Hentry|]);
    (split; [reflexivity|]); (split; [reflexivity|]);
    (split; [vm_compute; reflexivity|]); (split; [vm_compute; reflexivity|]);
    (split; [by_computation|]); (split; [by_computation|]);
    (split; [by_computation|]); split; reflexivity.
Qed.

(** X11. Static typing comes whole or not at all: the [type-check] script
    runs [tsc], [typescript] is a dev dependency, [tsconfig.json] and
    [src/types.ts] are generated and the entry file imports [./types]
    exactly when the record asks for static typing. *)
Theorem typing_toolchain a :
  (script_command "type-check" a = Some "tsc --noEmit" <-> typescript a = true)
  /\ ("typescript" ∈ dev_dependencies a <-> typescript a = true)
  /\ (is_Some (content_of (artifacts a) ["tsconfig.json"]) <-> typescript a = true)
  /\ (is_Some (content_of (artifacts a) ["src"; "types.ts"]) <-> typescript a = true)
  /\ Str.includes "from './types'" (generatePluginSource a) = typescript a.
Proof.
  rewrite artifacts_layout.
  destruct a as [n t sl mp ts]. unfold layout. cbn [typescript].
  destruct ts, t; repeat split; try done;
    try (intros _; by eexists); try (intros _; by_computation);
    try (by intros [? ?]);
    try (intros Hin; exfalso; revert Hin; by_computation);
    vm_compute; reflexivity.
Qed.

(** X14. An untyped entry file uses none of the words of the typed one: no
    annotation, no imported type, no import of [./types]. *)
Theorem untyped_source_plain a :
  Forall (fun t => Str.includes t (generatePluginSource (with_typescript false a))
                   = false)
    type_words.
Proof.
  destruct a as [n t sl mp ts]. unfold with_typescript. cbn [name type slots middlewarePoints].
  destruct t; by_computation.
Qed.

(** X15. Every entry file imports React first, defines the factory
    [createPlugin] and ends by exporting it as the default. *)
Theorem source_exports_factory a :
  String.prefix "import React" (generatePluginSource a) = true
  /\ Str.includes "const createPlugin" (generatePluginSource a) = true
  /\ ends_with "export default createPlugin;" (generatePluginSource a) = true.
Proof.
  destruct a as [n t sl mp ts].
  destruct t, ts; repeat split; vm_compute; reflexivity.
Qed.

(** X12. What [npm run pack] needs is there: the [pack] script runs
    [scripts/pack.js], which is generated; the modules that script
    requires are the dev dependency [adm-zip] and the generated
    [package.json] and [plugin.json] one directory up; [prepack] builds
    first; and of the three packaged files, [plugin.json] and [README.md]
    are generated and [dist/index.js] is the bundle the build puts out. *)
Theorem pack_chain a :
  script_command "pack" a = Some "node scripts/pack.js"
  /\ script_command "prepack" a = Some "npm run build"
  /\ is_Some (script_command "build" a)
  /\ content_of (artifacts a) ["scripts"; "pack.js"] = Some packJs
  /\ Str.includes "require('adm-zip')" packJs = true
  /\ "adm-zip" ∈ dev_dependencies a
  /\ Str.includes "require('../package.json')" packJs = true
  /\ Str.includes "require('../plugin.json')" packJs = true
  /\ ["package.json"] ∈ artifact_paths a
  /\ ["plugin.json"] ∈ artifact_paths a
  /\ ["README.md"] ∈ artifact_paths a
  /\ packaged_files a
     = [JsString "dist/index.js"; JsString "plugin.json"; JsString "README.md"]
  /\ property "main" (packageJson a) = Some (JsString "dist/index.js").
Proof.
  unfold artifact_paths. rewrite artifacts_layout.
  destruct a as [n t sl mp ts]. unfold layout. cbn [typescript].
  destruct ts; cbn [fmap list_fmap app fst];
    repeat split; try reflexivity; try (by eexists);
    try (vm_compute; reflexivity); by_computation.
Qed.

(** ** Directories come first *)



(** ** What each answer reaches *)

(** X13. Two records with the same typing choice have the same artifact
    paths.  The packaging script, the type-check configuration and the
    type definitions are the same for both; the build descriptor and the
    readme differ only if the names do; the entry file differs only if
    the types do; the slots and middleware points reach the manifest
    alone. *)
Theorem answers_reach a1 a2 :
  typescript a1 = typescript a2 ->
  artifact_paths a1 = artifact_paths a2
  /\ (forall r, r ∈ [ ["scripts"; "pack.js"]; ["tsconfig.json"]; ["src"; "types.ts"] ] ->
        content_of (artifacts a1) r = content_of (artifacts a2) r)
  /\ (name a1 = name a2 ->
      forall r, r ∈ [ ["package.json"]; ["README.md"] ] ->
        content_of (artifacts a1) r = content_of (artifacts a2) r)
  /\ (type a1 = type a2 ->
      forall r, r ∈ [ ["src"; "index.tsx"]; ["src"; "index.jsx"] ] ->
        content_of (artifacts a1) r = content_of (artifacts a2) r)
  /\ (name a1 = name a2 -> type a1 = type a2 ->
      forall r, r ≠ ["plugin.json"] ->
        content_of (artifacts a1) r = content_of (artifacts a2) r).
Proof.
  unfold artifact_paths. rewrite !artifacts_layout.
  destruct a1 as [n1 t1 sl1 mp1 ts1], a2 as [n2 t2 sl2 mp2 ts2].
  cbn [name type typescript]. intros <-. unfold layout, content_of.
  cbn [name type typescript].
  split; [by destruct ts1|]. split; [|split; [|split]].
  - intros r. rewrite !elem_of_cons, elem_of_nil.
    intros [->|[->|[->|[]]]]; by destruct ts1.
  - intros <- r. rewrite !elem_of_cons, elem_of_nil.
    intros [->|[->|[]]]; by destruct ts1.
  - intros <- r. rewrite !elem_of_cons, elem_of_nil.
    intros [->|[->|[]]]; by destruct ts1.
  - intros <- <- r Hr.
    destruct ts1; cbn [app find fst];
      (case_bool_decide; [by subst|]); by repeat case_bool_decide.
Qed.

End Generator.

(** * The prompt and valid records *)




Lemma name_char_plain c :
  Prompt.name_char c = true ->
  JSON.escape c = String c EmptyString /\ c ≠ "/"%char /\ c ≠ "."%char.
Proof.
  destruct c as [[] [] [] [] [] [] [] []]; vm_compute;
    intros H; try discriminate H; clear H;
    repeat split; try reflexivity; intros [=].
Qed.

Lemma includes_char_false (c : ascii) (s : string) :
  (fix absent (s : string) : Prop :=
     match s with
     | EmptyString => True
     | String c' s' => c' ≠ c /\ absent s'
     end) s ->
  Str.includes (String c EmptyString) s = false.
Proof.
  induction s as [|c' s IH]; [done|]. intros [Hne Habs].
  cbn [Str.includes String.prefix].
  destruct (ascii_dec c c') as [->|_]; [done|]. by apply IH.
Qed.

(** X17. A name the prompt accepts is a single, ordinary path component and
    needs no escaping: it is not empty, holds neither [/] nor [.] (so it
    is neither [.] nor [..] and names a directory directly below the
    working directory), and [JSON.stringify] prints it between quotes as
    it is. *)
Theorem validated_name_plain n :
  Prompt.validate n = true ->
  n ≠ EmptyString
  /\ Str.includes "/" n = false
  /\ Str.includes "." n = false
  /\ JSON.quote n = Str.dq +:+ n +:+ Str.dq.
Proof.
  intros Hv.
  assert (Prompt.all_name_chars n = true) as Hall by (by destruct n).
  split; [by destruct n|]. clear Hv.
  assert (JSON.escape_all n = n
          /\ (fix absent (s : string) : Prop :=
                match s with
                | EmptyString => True
                | String c' s' => c' ≠ "/"%char /\ absent s'
                end) n
          /\ (fix absent (s : string) : Prop :=
                match s with
                | EmptyString => True
                | String c' s' => c' ≠ "."%char /\ absent s'
                end) n) as (Hesc & Hslash & Hdot).
  { induction n as [|c n IH]; [done|].
    cbn [Prompt.all_name_chars] in Hall.
    apply andb_prop in Hall as [Hc Hn].
    destruct (name_char_plain c Hc) as (He & Hs & Hd).
    destruct (IH Hn) as (IHe & IHs & IHd).
    cbn [JSON.escape_all]. rewrite He, IHe. done. }
  split; [by apply includes_char_false|].
  split; [by apply includes_char_false|].
  unfold JSON.quote. by rewrite Hesc.
Qed.

(** * Instances *)

Lemma settled_with {A B : Type} (x : A * B) (b : B) : x.2 = b -> x = (x.1, b).
Proof. destruct x. by intros <-. Qed.

Lemma createPluginFiles_deterministic_witness :
  let gen := createPluginFiles sample_type_defs plain plain my_plugin in
  valid_answers my_plugin = true
  /\ (run gen home_world).2 = inr tt
  /\ (run gen work_world).2 = inr tt
  /\ forall r, r ∈ artifact_paths sample_type_defs plain plain my_plugin ->
       is_Some (fs_files (run gen home_world).1 !! (["home"; "user"; "my-plugin"] ++ r))
       /\ fs_files (run gen home_world).1 !! (["home"; "user"; "my-plugin"] ++ r)
          = fs_files (run gen work_world).1
              !! (["srv"; "work"; "plugins"; "my-plugin"] ++ r).
Proof.
  intros gen.
  split; [reflexivity|]. split; [vm_compute; reflexivity|].
  split; [vm_compute; reflexivity|].
  apply (createPluginFiles_deterministic sample_type_defs plain plain
           my_plugin home_world work_world
           (run gen home_world).1 (run gen work_world).1).
  - reflexivity.
  - apply settled_with. vm_compute; reflexivity.
  - apply settled_with. vm_compute; reflexivity.
Defined.

Lemma manifest_fields_witness :
  valid_answers my_mw = true
  /\ exists members,
       JSON.of_value (manifest my_mw) = Some (JSON.Obj members)
       /\ content_of (artifacts sample_type_defs plain plain my_mw) ["plugin.json"]
          = Some (JSON.print (JSON.spaces 2) EmptyString (JSON.Obj members) +:+ Str.nl)
       /\ ("slots" ∈ members.*1 <-> type my_mw ≠ middleware)
       /\ ("middlewarePoints" ∈ members.*1 <-> type my_mw ≠ ui).
Proof.
  split; [reflexivity|].
  apply (manifest_fields sample_type_defs plain plain my_mw). reflexivity.
Defined.

Lemma types_file_independent_witness :
  content_of (artifacts sample_type_defs plain plain my_plugin) ["src"; "types.ts"]
  = content_of (artifacts sample_type_defs plain plain (with_typescript true my_mw))
      ["src"; "types.ts"]
  /\ content_of (artifacts sample_type_defs plain plain my_plugin) ["src"; "types.ts"]
     = Some (generatePluginTypes sample_type_defs my_plugin)
  /\ generatePluginTypes sample_type_defs my_plugin
     = generatePluginTypes sample_type_defs (with_typescript true my_mw).
Proof.
  apply (types_file_independent sample_type_defs plain plain
           my_plugin (with_typescript true my_mw)); reflexivity.
Defined.

Lemma createPluginFiles_fail_fast_witness :
  let gen := createPluginFiles sample_type_defs plain plain my_plugin in
  let calls := plan sample_type_defs plain plain my_plugin ["home"; "user"] in
  let readme := ["home"; "user"; "my-plugin"; "README.md"] in
  let w1 := (exec (take 5 calls) refusing_world).1 in
  run gen refusing_world = (w1, inl (FsError EACCES readme))
  /\ (forall i file data,
        i < 5 -> calls !! i = Some (WriteFile file data) ->
        fs_files w1 !! file = Some data)
  /\ (forall i file data,
        5 < i -> calls !! i = Some (WriteFile file data) ->
        fs_files w1 !! file = fs_files refusing_world !! file)
  /\ console_out w1 = console_out refusing_world.
Proof.
  intros gen calls readme w1.
  apply (createPluginFiles_fail_fast sample_type_defs plain plain
           my_plugin refusing_world 5
           (WriteFile readme
              ("# my-plugin" +:+ Str.nl +:+ Str.nl +:+ "A plugin for bolt.diy"))
           w1 (FsError EACCES readme)).
  - reflexivity.
  - apply settled_with. vm_compute; reflexivity.
  - vm_compute; reflexivity.
Defined.

(** * Where the specification and the code part *)

(** The typed generation does not write every path of the untyped one:
    [src/index.jsx] is written only without static typing. *)
Lemma typed_paths_not_superset :
  ~ strict_superset
      (artifact_paths sample_type_defs plain plain (with_typescript true my_plugin))
      (artifact_paths sample_type_defs plain plain (with_typescript false my_plugin)).
Proof.
  intros [Hsub _].
  assert (["src"; "index.jsx"]
          ∈ artifact_paths sample_type_defs plain plain
              (with_typescript true my_plugin)) as Hin.
  { apply Hsub. by_computation. }
  revert Hin. by_computation.
Qed.

(** The typed [watch] command is not the typed [build] command with a
    flag added: both have nine words, [build] ending in [--minify] and
    [watch] in [--watch]. *)
Lemma watch_is_not_build_plus_flag :
  exists build watch,
    script_command "build" my_plugin = Some build
    /\ script_command "watch" my_plugin = Some watch
    /\ ~ adds_a_flag build watch.
Proof.
  do 2 eexists. split; [reflexivity|]. split; [reflexivity|].
  intros (before & after & flag & Hb & Hw).
  apply (f_equal length) in Hb, Hw.
  rewrite length_app in Hb, Hw. cbn [length] in Hw.
  match type of Hb with ?n = _ =>
    assert (n = 9) as Hnb by (vm_compute; reflexivity) end.
  match type of Hw with ?n = _ =>
    assert (n = 9) as Hnw by (vm_compute; reflexivity) end.
  lia.
Qed.

(** * Instances of the further properties *)

Lemma createPluginFiles_failure_witness :
  exists n c code at_path,
    plan sample_type_defs plain plain my_plugin (proc_cwd refusing_world) !! n
    = Some c
    /\ exec (take n (plan sample_type_defs plain plain my_plugin
                       (proc_cwd refusing_world))) refusing_world
       = ((run (createPluginFiles sample_type_defs plain plain my_plugin)
             refusing_world).1, inr tt)
    /\ step c (run (createPluginFiles sample_type_defs plain plain my_plugin)
                 refusing_world).1
       = inl (FsError EACCES ["home"; "user"; "my-plugin"; "README.md"])
    /\ FsError EACCES ["home"; "user"; "my-plugin"; "README.md"]
       = FsError code at_path
    /\ match c with
       | EnsureDir dir => at_path `prefix_of` dir
       | WriteFile file _ => at_path = file
       | ConsoleLog _ => False
       end.
Proof.
  apply (createPluginFiles_failure sample_type_defs plain plain
           my_plugin refusing_world).
  apply (settled_with
           (run (createPluginFiles sample_type_defs plain plain my_plugin)
              refusing_world)).
  vm_compute; reflexivity.
Defined.

Lemma createPluginFiles_completes_witness :
  ready sample_type_defs plain plain my_plugin stale_world
  /\ run (createPluginFiles sample_type_defs plain plain my_plugin) stale_world
     = (generated sample_type_defs plain plain my_plugin stale_world, inr tt).
Proof.
  assert (ready sample_type_defs plain plain my_plugin stale_world) as Hready.
  { unfold ready. split; [|split]; by_computation. }
  split; [exact Hready|].
  apply (createPluginFiles_completes sample_type_defs plain plain
           my_plugin stale_world Hready).
Defined.

Lemma createPluginFiles_completes_only_witness :
  ready sample_type_defs plain plain my_mw work_world
  /\ (run (createPluginFiles sample_type_defs plain plain my_mw) work_world).1
     = generated sample_type_defs plain plain my_mw work_world.
Proof.
  apply (createPluginFiles_completes_only sample_type_defs plain plain
           my_mw work_world
           (run (createPluginFiles sample_type_defs plain plain my_mw)
              work_world).1).
  apply (settled_with
           (run (createPluginFiles sample_type_defs plain plain my_mw)
              work_world) (inr tt)).
  vm_compute; reflexivity.
Defined.

Lemma createPluginFiles_again_witness :
  ready sample_type_defs plain plain my_plugin home_world
  /\ exists w2,
       run (createPluginFiles sample_type_defs plain plain my_plugin)
         (generated sample_type_defs plain plain my_plugin home_world)
       = (w2, inr tt)
       /\ fs_files w2
          = fs_files (generated sample_type_defs plain plain my_plugin home_world)
       /\ fs_dirs w2
          = fs_dirs (generated sample_type_defs plain plain my_plugin home_world)
       /\ console_out w2
          = console_out home_world
            ++ summary plain plain my_plugin ++ summary plain plain my_plugin.
Proof.
  assert (ready sample_type_defs plain plain my_plugin home_world) as Hready.
  { unfold ready. split; [|split]; by_computation. }
  split; [exact Hready|].
  exact (createPluginFiles_again sample_type_defs plain plain
           my_plugin home_world Hready).
Defined.

Lemma createPluginFiles_blocked_witness :
  is_Some (fs_files taken_world !! ["home"; "user"; "my-plugin"])
  /\ exists code at_path,
       run (createPluginFiles sample_type_defs plain plain my_plugin) taken_world
       = (taken_world, inl (FsError code at_path))
       /\ at_path `prefix_of` pluginDir (proc_cwd taken_world) my_plugin.
Proof.
  assert (is_Some (fs_files taken_world !! ["home"; "user"; "my-plugin"])) as Hfile.
  { by_computation. }
  split; [exact Hfile|].
  apply (createPluginFiles_blocked sample_type_defs plain plain
           my_plugin taken_world).
  right. exists ["home"; "user"; "my-plugin"]. split; [|exact Hfile].
  by_computation.
Defined.

Lemma validated_name_plain_witness :
  Prompt.validate "my-bolt-plugin" = true
  /\ "my-bolt-plugin" ≠ EmptyString
  /\ Str.includes "/" "my-bolt-plugin" = false
  /\ Str.includes "." "my-bolt-plugin" = false
  /\ JSON.quote "my-bolt-plugin" = Str.dq +:+ "my-bolt-plugin" +:+ Str.dq.
Proof.
  split; [reflexivity|]. apply (validated_name_plain "my-bolt-plugin").
  reflexivity.
Defined.


Lemma answers_reach_witness :
  artifact_paths sample_type_defs plain plain my_plugin
  = artifact_paths sample_type_defs plain plain (with_typescript true my_mw)
  /\ content_of (artifacts sample_type_defs plain plain my_plugin)
       ["tsconfig.json"]
     = content_of (artifacts sample_type_defs plain plain
                     (with_typescript true my_mw)) ["tsconfig.json"].
Proof.
  destruct (answers_reach sample_type_defs plain plain
              my_plugin (with_typescript true my_mw) eq_refl)
    as (Hpaths & Hfixed & _).
  split; [exact Hpaths|]. apply Hfixed. by_computation.
Defined.
